(** * PhantomWalletAdapter: a shallow embedding of
      packages/wallets/phantom/src/adapter.ts

    The adapter is a class with mutable fields that talks to the browser
    (current URL, navigation, localStorage), to an injected extension object
    and to three libraries (tweetnacl, bs58, @solana/web3.js).  The
    embedding threads one [State] (host, adapter fields, emitted events)
    through a small state-and-exception monad [Js]; a JavaScript [throw]
    is the [Throw] completion, and state changes made before a throw are
    kept, as in JavaScript.  Everything the file imports from outside the
    adapter is a field of the class [Externals]. *)

From Stdlib Require Import Strings.Byte Ascii DecimalString.
From stdpp Require Import gmap strings list.

Set Default Proof Using "Type".
Open Scope string_scope.

(** ** Values shared with the libraries *)

(** A [Uint8Array]. *)
Abbreviation bytes := (list byte).

(** [WalletReadyState] of @solana/wallet-adapter-base. *)
Inductive WalletReadyState := Installed | NotDetected | Loadable | Unsupported.

Definition WalletReadyState_eqb (a b : WalletReadyState) : bool :=
  match a, b with
  | Installed, Installed | NotDetected, NotDetected
  | Loadable, Loadable | Unsupported, Unsupported => true
  | _, _ => false
  end.

(** The error classes the adapter imports; [WalletErrorBase] is a direct
    instance of [WalletError] itself (`new WalletError(...)`). *)
Inductive WalletErrorClass :=
| WalletErrorBase
| WalletAccountError
| WalletConnectionError
| WalletDisconnectedError
| WalletDisconnectionError
| WalletNotConnectedError
| WalletNotReadyError
| WalletPublicKeyError
| WalletSendTransactionError
| WalletSignMessageError
| WalletSignTransactionError.

(** A thrown value.  [WalletError cls message error] is
    `new cls(message, error)`: every class above extends [WalletError], whose
    constructor takes an optional message and an optional cause.  [Foreign]
    is any thrown value that is not an instance of [WalletError]; its
    [message] is what `error?.message` reads. *)
#[warnings="-register-all"]
Inductive JsError :=
| Foreign (message : option string)
| WalletError (cls : WalletErrorClass) (message : string) (error : option JsError).

(** `error instanceof WalletError` *)
Definition instanceof_WalletError (e : JsError) : bool :=
  match e with WalletError _ _ _ => true | Foreign _ => false end.

(** `error?.message` *)
Definition error_message (e : JsError) : option string :=
  match e with
  | Foreign m => m
  | WalletError _ m _ => Some m
  end.

(** `new cls(error?.message, error)`; an undefined message leaves the
    [Error]'s message empty. *)
Definition wrap_error (cls : WalletErrorClass) (e : JsError) : JsError :=
  WalletError cls (default "" (error_message e)) (Some e).

(** `new cls()` *)
Definition new_error (cls : WalletErrorClass) : JsError := WalletError cls "" None.

(** How a JavaScript evaluation ends. *)
Inductive Completion (A : Type) :=
| Normal (a : A)
| Throw (e : JsError).
Arguments Normal {A} a.
Arguments Throw {A} e.

(** A URL in parsed form: everything before the query, the query parameters
    in order (duplicates allowed, as in [URLSearchParams]) and the fragment. *)
Record Url := mkUrl {
  url_base : string;
  searchParams : list (string * string);
  url_hash : string
}.

(** `nacl.box.keyPair()` *)
Record KeyPair := mkKeyPair { kp_publicKey : bytes; kp_secretKey : bytes }.

(** web3.js [SendOptions] and the adapter-base [SendTransactionOptions]
    (`SendOptions & { signers?: Signer[] }`). *)
Record SendOptions := mkSendOptions {
  skipPreflight : option bool;
  preflightCommitment : option string;
  maxRetries : option nat;
  minContextSlot : option nat
}.

Definition set_preflightCommitment (c : option string) (o : SendOptions) : SendOptions :=
  mkSendOptions (skipPreflight o) c (maxRetries o) (minContextSlot o).

(** The JSON the wallet app sends back, after decryption:
    `{public_key: string, session: string}`; [None] is a missing field. *)
Record ConnectData := mkConnectData {
  public_key : option string;
  session : option string
}.

(** The object that is encrypted for signAndSendTransaction;
    [p_session = None] is JSON `null`. *)
Record Payload := mkPayload {
  p_transaction : string;
  p_sendOptions : SendOptions;
  p_session : option string
}.

(** `interface PhantomWalletEvents` *)
Inductive PhantomWalletEvent := ev_connect | ev_disconnect | ev_accountChanged.

Global Instance PhantomWalletEvent_eq_dec : EqDecision PhantomWalletEvent.
Proof. solve_decision. Defined.

(** The two places the extension injects itself:
    `window.phantom.solana` and `window.solana`. *)
Inductive WalletRef := PhantomSolana | WindowSolana.

(** ** What the adapter imports *)

Class Externals := {
  (* @solana/web3.js *)
  Transaction : Type;
  Signer : Type;
  Connection : Type;
  PublicKey : Type;
  isVersionedTransaction : Transaction -> bool;
  tx_sign : Transaction -> list Signer -> Completion Transaction;
  tx_partialSign : Transaction -> list Signer -> Completion Transaction;
  tx_serialize : Transaction -> Completion bytes;
  connection_commitment : Connection -> option string;
  PublicKey_new_string : option string -> Completion PublicKey;
  PublicKey_new_bytes : bytes -> Completion PublicKey;
  PublicKey_toBytes : PublicKey -> Completion bytes;
  PublicKey_equals : PublicKey -> PublicKey -> bool;
  (* BaseWalletAdapter.prepareTransaction; it may read `this.publicKey` *)
  prepareTransaction :
    option PublicKey -> Transaction -> Connection -> SendOptions -> Completion Transaction;
  (* tweetnacl; the natural number is the state of the random source *)
  nacl_box_keyPair : nat -> KeyPair;
  nacl_randomBytes : nat -> nat -> bytes;
  nacl_box_before : bytes -> bytes -> Completion bytes;
  nacl_box_after : bytes -> bytes -> bytes -> Completion bytes;
  nacl_box_open_after : bytes -> bytes -> bytes -> Completion (option bytes);
  (* bs58 *)
  bs58_encode : bytes -> string;
  bs58_decode : string -> Completion bytes;
  (* built-ins *)
  Number_Uint8 : string -> byte;
  JSON_parse_ConnectData : bytes -> Completion ConnectData;
  JSON_stringify_Payload : Payload -> bytes;
  URL_toString : Url -> string;
  URLSearchParams_toString : list (string * string) -> string;
  (* the injected extension object, `interface PhantomWallet` *)
  Provider : Type;
  provider_isPhantom : Provider -> bool;
  provider_isConnected : Provider -> bool;
  provider_publicKey : Provider -> option (Completion bytes);
  provider_connect : Provider -> Completion unit * Provider;
  provider_disconnect : Provider -> Completion unit * Provider;
  provider_signTransaction :
    Provider -> Transaction -> Completion (option Transaction) * Provider;
  provider_signAllTransactions :
    Provider -> list Transaction -> Completion (option (list Transaction)) * Provider;
  provider_signAndSendTransaction :
    Provider -> Transaction -> SendOptions -> Completion string * Provider;
  provider_signMessage : Provider -> bytes -> Completion bytes * Provider
}.

(** ** Pure helpers *)

(** `Uint8Array.prototype.toString`: the bytes in decimal, joined by commas. *)
Definition byte_toString (b : byte) : string :=
  NilZero.string_of_uint (N.to_uint (Byte.to_N b)).

Definition Uint8Array_toString (a : bytes) : string :=
  String.concat "," (map byte_toString a).

(** `s.split(',')` *)
Fixpoint split_comma (s : string) : list string :=
  match s with
  | EmptyString => [EmptyString]
  | String c s' =>
      if Ascii.eqb c ","%char then EmptyString :: split_comma s'
      else match split_comma s' with
           | [] => [String c EmptyString]
           | h :: t => String c h :: t
           end
  end.

(** `URLSearchParams.prototype.get`: the first value of the name, or null. *)
Fixpoint searchParams_get (name : string) (ps : list (string * string)) : option string :=
  match ps with
  | [] => None
  | (k, v) :: ps' => if String.eqb k name then Some v else searchParams_get name ps'
  end.

(** `URLSearchParams.prototype.delete`: removes every pair of that name. *)
Definition searchParams_delete (name : string) (ps : list (string * string))
  : list (string * string) :=
  filter (fun kv => fst kv ≠ name) ps.

Definition url_delete (name : string) (u : Url) : Url :=
  mkUrl (url_base u) (searchParams_delete name (searchParams u)) (url_hash u).

(** Truthiness of a `string | null`. *)
Definition truthy (v : option string) : bool :=
  match v with
  | Some s => negb (String.eqb s "")
  | None => false
  end.

(** `a || b` on `string | undefined`. *)
Definition js_or (a b : option string) : option string :=
  if truthy a then a else b.

(** The four storage keys of the adapter. *)
Definition _deepLinkPublicKeyStorage : string := "PHANTOM_DEEP_LINK_PUBLIC_KEY".
Definition _deepLinkSecretKeyStorage : string := "PHANTOM_DEEP_LINK_SECRET_KEY".
Definition _deepLinkSharedSecretStorage : string := "PHANTOM_DEEP_LINK_SHARED_SECRET".
Definition _deepLinkSessionStorage : string := "PHANTOM_DEEP_LINK_SESSION".

(** ** State *)

Section PhantomWalletAdapter.
Context `{Ext : Externals}.

(** An injected extension object: its own state and the adapter handlers
    subscribed to it with `on` (only the adapter subscribes here). *)
Record PhantomWallet := mkPhantomWallet {
  provider : Provider;
  handlers : list PhantomWalletEvent
}.

(** The browser around the adapter.  [location] is `window.location` in
    parsed form; [navigations] are the assignments to
    `window.location.href`, oldest first; [entropy] is the state of the
    random source behind tweetnacl. *)
Record Host := mkHost {
  window_defined : bool;
  document_defined : bool;
  window_phantom_solana : option PhantomWallet;
  window_solana : option PhantomWallet;
  location : Url;
  localStorage : gmap string string;
  navigations : list string;
  alerts : list string;
  entropy : nat
}.

(** The private fields of the class.  `_wallet` is a reference to one of the
    injected objects; [detection] records that the constructor registered
    the polling detector with `scopePollingDetectionStrategy`. *)
Record Adapter := mkAdapter {
  _connecting : bool;
  _wallet : option WalletRef;
  _publicKey : option PublicKey;
  _readyState : WalletReadyState;
  detection : bool
}.

(** The events of the adapter itself, `this.emit(...)`. *)
Inductive Event :=
| readyStateChange (r : WalletReadyState)
| connect_event (publicKey : PublicKey)
| disconnect_event
| error_event (e : JsError).

Record State := mkState {
  host : Host;
  adapter : Adapter;
  emitted : list Event
}.

Definition set_host (f : Host -> Host) (s : State) : State :=
  mkState (f (host s)) (adapter s) (emitted s).

Definition set_adapter (f : Adapter -> Adapter) (s : State) : State :=
  mkState (host s) (f (adapter s)) (emitted s).

Definition with_connecting (b : bool) (a : Adapter) : Adapter :=
  mkAdapter b (_wallet a) (_publicKey a) (_readyState a) (detection a).

Definition with_wallet (w : option WalletRef) (a : Adapter) : Adapter :=
  mkAdapter (_connecting a) w (_publicKey a) (_readyState a) (detection a).

Definition with_publicKey (k : option PublicKey) (a : Adapter) : Adapter :=
  mkAdapter (_connecting a) (_wallet a) k (_readyState a) (detection a).

Definition with_readyState (r : WalletReadyState) (a : Adapter) : Adapter :=
  mkAdapter (_connecting a) (_wallet a) (_publicKey a) r (detection a).

Definition with_detection (b : bool) (a : Adapter) : Adapter :=
  mkAdapter (_connecting a) (_wallet a) (_publicKey a) (_readyState a) b.

Definition with_localStorage (m : gmap string string) (h : Host) : Host :=
  mkHost (window_defined h) (document_defined h) (window_phantom_solana h)
         (window_solana h) (location h) m (navigations h) (alerts h) (entropy h).

Definition with_navigations (l : list string) (h : Host) : Host :=
  mkHost (window_defined h) (document_defined h) (window_phantom_solana h)
         (window_solana h) (location h) (localStorage h) l (alerts h) (entropy h).

Definition with_alerts (l : list string) (h : Host) : Host :=
  mkHost (window_defined h) (document_defined h) (window_phantom_solana h)
         (window_solana h) (location h) (localStorage h) (navigations h) l (entropy h).

Definition with_entropy (n : nat) (h : Host) : Host :=
  mkHost (window_defined h) (document_defined h) (window_phantom_solana h)
         (window_solana h) (location h) (localStorage h) (navigations h) (alerts h) n.

(** The object a reference points to. *)
Definition wallet_at (r : WalletRef) (h : Host) : option PhantomWallet :=
  match r with
  | PhantomSolana => window_phantom_solana h
  | WindowSolana => window_solana h
  end.

Definition with_wallet_at (r : WalletRef) (w : PhantomWallet) (h : Host) : Host :=
  match r with
  | PhantomSolana =>
      mkHost (window_defined h) (document_defined h) (Some w) (window_solana h)
             (location h) (localStorage h) (navigations h) (alerts h) (entropy h)
  | WindowSolana =>
      mkHost (window_defined h) (document_defined h) (window_phantom_solana h) (Some w)
             (location h) (localStorage h) (navigations h) (alerts h) (entropy h)
  end.

(** ** The monad *)

Definition Js (A : Type) : Type := State -> Completion A * State.

Definition ret {A} (a : A) : Js A := fun s => (Normal a, s).

Definition throw {A} (e : JsError) : Js A := fun s => (Throw e, s).

Definition bind {A B} (m : Js A) (k : A -> Js B) : Js B :=
  fun s =>
    match m s with
    | (Normal a, s') => k a s'
    | (Throw e, s') => (Throw e, s')
    end.

(** A library call that may throw and touches no state. *)
Definition lift {A} (c : Completion A) : Js A := fun s => (c, s).

(** `try { m } catch (error) { h error }` *)
Definition try_catch {A} (m : Js A) (h : JsError -> Js A) : Js A :=
  fun s =>
    match m s with
    | (Normal a, s') => (Normal a, s')
    | (Throw e, s') => h e s'
    end.

(** `try { m } finally { f }` for a finally block that only assigns. *)
Definition try_finally {A} (m : Js A) (f : State -> State) : Js A :=
  fun s => let (r, s') := m s in (r, f s').

(** A call of an async function whose promise is dropped: its body runs
    (none of the bodies used this way awaits), a rejection is not observed. *)
Definition floating {A} (m : Js A) : Js unit :=
  fun s => (Normal tt, snd (m s)).

Definition gets {A} (f : State -> A) : Js A := fun s => (Normal (f s), s).

Definition modify (f : State -> State) : Js unit := fun s => (Normal tt, f s).


Notation "'let*' x ':=' m 'in' k" := (bind m (fun x => k))
  (at level 10, x name, m at level 100, k at level 200).
Notation "m ';;;' k" := (bind m (fun _ => k))
  (at level 100, k at level 200, right associativity).

(** `this.emit(...)`: the event is appended to the log. *)
Definition emit (ev : Event) : Js unit :=
  modify (fun s => mkState (host s) (adapter s) (emitted s ++ [ev])).

(** ** The adapter *)

(** `const useDeepLink = true;` *)
Definition useDeepLink : bool := true.

(** The initialiser of the `_readyState` field. *)
Definition initial_readyState (h : Host) : WalletReadyState :=
  if negb (window_defined h) || negb (document_defined h)
  then Unsupported else NotDetected.

(** `constructor(config)` *)
Definition constructor (h : Host) : State :=
  let s := mkState h (mkAdapter false None None (initial_readyState h) false) [] in
  if negb (WalletReadyState_eqb (_readyState (adapter s)) Unsupported) then
    if useDeepLink then
      snd ((modify (set_adapter (with_readyState Loadable)) ;;;
            let* r := gets (fun s => _readyState (adapter s)) in
            emit (readyStateChange r)) s)
    else
      set_adapter (with_detection true) s
  else s.

(** `window.phantom?.solana?.isPhantom || window.solana?.isPhantom` *)
Definition isPhantom_injected (h : Host) : bool :=
  match window_phantom_solana h with
  | Some w => provider_isPhantom (provider w)
  | None => false
  end
  || match window_solana h with
     | Some w => provider_isPhantom (provider w)
     | None => false
     end.

(** The detector handed to `scopePollingDetectionStrategy`. *)
Definition detect : Js bool :=
  let* found := gets (fun s => isPhantom_injected (host s)) in
  if found then
    modify (set_adapter (with_readyState Installed)) ;;;
    let* r := gets (fun s => _readyState (adapter s)) in
    emit (readyStateChange r) ;;;
    ret true
  else ret false.

(** One tick of the polling strategy: it calls the detector only if one was
    registered, and stops polling once the detector returns true. *)
Definition poll (s : State) : State :=
  if detection (adapter s) then
    match detect s with
    | (Normal true, s') => set_adapter (with_detection false) s'
    | (_, s') => s'
    end
  else s.

(** `get publicKey()`, `get connecting()`, `get connected()`,
    `get readyState()` *)
Definition publicKey (s : State) : option PublicKey := _publicKey (adapter s).

Definition connecting (s : State) : bool := _connecting (adapter s).

Definition connected (s : State) : bool :=
  match _wallet (adapter s) with
  | Some r =>
      match wallet_at r (host s) with
      | Some w => provider_isConnected (provider w)
      | None => false
      end
  | None => false
  end.

Definition readyState (s : State) : WalletReadyState := _readyState (adapter s).

(** `localStorage.setItem(key, value)` and `localStorage.getItem(key)` *)
Definition localStorage_setItem (key value : string) : Js unit :=
  modify (set_host (fun h => with_localStorage (<[key := value]> (localStorage h)) h)).

Definition localStorage_getItem (key : string) : Js (option string) :=
  gets (fun s => localStorage (host s) !! key).

Definition localStorageSet (key value : string) : Js unit :=
  localStorage_setItem key value.

Definition key_not_stored (key : string) : JsError :=
  WalletError WalletErrorBase ("Key " ++ key ++ " not stored") None.

Definition localStorageGetUint8 (key : string) : Js bytes :=
  let* valueString := localStorage_getItem key in
  if negb (truthy valueString) then
    let error := key_not_stored key in
    emit (error_event error) ;;;
    throw error
  else
    ret (map Number_Uint8 (split_comma (default "" valueString))).

Definition strip_phantom_params (u : Url) : Url :=
  url_delete "errorMessage"
    (url_delete "errorCode"
       (url_delete "data"
          (url_delete "nonce"
             (url_delete "phantom_encryption_public_key" u)))).

Definition makeRedirectUrl : Js string :=
  gets (fun s => URL_toString (strip_phantom_params (location (host s)))).

Definition makeDeepLinkUrl (path : string) (params : list (string * string)) : string :=
  "https://phantom.app/ul/v1/" ++ path ++ "?" ++ URLSearchParams_toString params.

(** `nacl.box.keyPair()` and `nacl.randomBytes(n)`: one draw each. *)
Definition nacl_keyPair : Js KeyPair :=
  fun s => (Normal (nacl_box_keyPair (entropy (host s))),
            set_host (fun h => with_entropy (S (entropy h)) h) s).

Definition nacl_random (n : nat) : Js bytes :=
  fun s => (Normal (nacl_randomBytes n (entropy (host s))),
            set_host (fun h => with_entropy (S (entropy h)) h) s).

Definition alert (msg : string) : Js unit :=
  modify (set_host (fun h => with_alerts (alerts h ++ [msg]) h)).

(** `window.location.href = url` *)
Definition navigate (url : string) : Js unit :=
  modify (set_host (fun h => with_navigations (navigations h ++ [url]) h)).

Definition connect_params (appUrl : string) (dappPublicKey : bytes)
  : list (string * string) :=
  [("app_url", appUrl);
   ("dapp_encryption_public_key", bs58_encode dappPublicKey);
   ("redirect_link", appUrl);
   ("cluster", "devnet")].

Definition connectUsingDeepLink : Js unit :=
  let* dappDeepLinkKeypair := nacl_keyPair in
  localStorageSet _deepLinkPublicKeyStorage
    (Uint8Array_toString (kp_publicKey dappDeepLinkKeypair)) ;;;
  localStorageSet _deepLinkSecretKeyStorage
    (Uint8Array_toString (kp_secretKey dappDeepLinkKeypair)) ;;;
  let* appUrl := makeRedirectUrl in
  let connectUrl :=
    makeDeepLinkUrl "connect" (connect_params appUrl (kp_publicKey dappDeepLinkKeypair)) in
  alert connectUrl ;;;
  navigate connectUrl.

Definition unable_to_decrypt : JsError :=
  WalletError WalletConnectionError "Unable to decrypt connection params" None.

Definition handleConnectionDeepLinkParams
    (phantomEncryptionPublicKey nonce encryptedData : string) : Js unit :=
  let* dappSecretKey := localStorageGetUint8 _deepLinkSecretKeyStorage in
  let* phantomPublicKey := lift (bs58_decode phantomEncryptionPublicKey) in
  let* sharedSecret := lift (nacl_box_before phantomPublicKey dappSecretKey) in
  localStorageSet _deepLinkSharedSecretStorage (Uint8Array_toString sharedSecret) ;;;
  let* box := lift (bs58_decode encryptedData) in
  let* n := lift (bs58_decode nonce) in
  let* decrypytedConnectData := lift (nacl_box_open_after box n sharedSecret) in
  match decrypytedConnectData with
  | None =>
      let error := unable_to_decrypt in
      emit (error_event error) ;;;
      throw error
  | Some plain =>
      let* parsedConnectData := lift (JSON_parse_ConnectData plain) in
      let walletPublicKey := public_key parsedConnectData in
      let session := session parsedConnectData in
      localStorage_setItem _deepLinkSessionStorage (default "undefined" session) ;;;
      let* pk := lift (PublicKey_new_string walletPublicKey) in
      modify (set_adapter (with_publicKey (Some pk))) ;;;
      emit (connect_event pk)
  end.


(** Reading the identifier `window`: a ReferenceError where no such global
    exists.  `!window` is false for the window object. *)
Definition not_window : Js bool :=
  fun s =>
    if window_defined (host s) then (Normal false, s)
    else (Throw (Foreign (Some "window is not defined")), s).

(** A method call on the object behind a reference. *)
Definition call_wallet {A} (r : WalletRef) (f : Provider -> Completion A * Provider) : Js A :=
  fun s =>
    match wallet_at r (host s) with
    | Some w =>
        let (c, p) := f (provider w) in
        (c, set_host (with_wallet_at r (mkPhantomWallet p (handlers w))) s)
    | None => (Throw (Foreign (Some "Cannot read properties of undefined")), s)
    end.

(** `wallet.on(event, handler)` and `wallet.off(event, handler)` with the
    adapter's own handler for [event]. *)
Definition wallet_on (r : WalletRef) (event : PhantomWalletEvent) : Js unit :=
  modify (fun s =>
    match wallet_at r (host s) with
    | Some w =>
        set_host (with_wallet_at r (mkPhantomWallet (provider w) (handlers w ++ [event]))) s
    | None => s
    end).

Definition wallet_off (r : WalletRef) (event : PhantomWalletEvent) : Js unit :=
  modify (fun s =>
    match wallet_at r (host s) with
    | Some w =>
        set_host (with_wallet_at r
          (mkPhantomWallet (provider w) (filter (fun e => e ≠ event) (handlers w)))) s
    | None => s
    end).

(** `window.phantom?.solana || window.solana!` *)
Definition injected_wallet (h : Host) : option WalletRef :=
  match window_phantom_solana h with
  | Some _ => Some PhantomSolana
  | None =>
      match window_solana h with
      | Some _ => Some WindowSolana
      | None => None
      end
  end.

(** The else branch of `connect()`: the extension is talked to directly. *)
Definition connect_direct : Js unit :=
  let* wallet := gets (fun s => injected_wallet (host s)) in
  match wallet with
  | None => throw (Foreign (Some "Cannot read properties of undefined"))
  | Some r =>
      let* isConnected := gets (fun s =>
        match wallet_at r (host s) with
        | Some w => provider_isConnected (provider w)
        | None => false
        end) in
      (if negb isConnected then
         try_catch (call_wallet r provider_connect)
                   (fun error => throw (wrap_error WalletConnectionError error))
       else ret tt) ;;;
      let* key := gets (fun s =>
        match wallet_at r (host s) with
        | Some w => provider_publicKey (provider w)
        | None => None
        end) in
      match key with
      | None => throw (new_error WalletAccountError)
      | Some toBytes =>
          let* publicKey :=
            try_catch (let* b := lift toBytes in lift (PublicKey_new_bytes b))
                      (fun error => throw (wrap_error WalletPublicKeyError error)) in
          wallet_on r ev_disconnect ;;;
          wallet_on r ev_accountChanged ;;;
          modify (set_adapter (with_wallet (Some r))) ;;;
          modify (set_adapter (with_publicKey (Some publicKey))) ;;;
          emit (connect_event publicKey)
      end
  end.

(** `async connect()`.  The early `return` sits inside the `try`, so the
    `finally` block runs after it as well; `this.connectUsingDeepLink()` is
    called without `await`. *)
Definition connect : Js unit :=
  try_finally
    (try_catch
       (let* c := gets connected in
        let* g := gets connecting in
        let* nw := if c || g then ret false else not_window in
        if c || g || nw then ret tt
        else
          let* rs := gets readyState in
          if negb (WalletReadyState_eqb rs Installed)
             && negb (WalletReadyState_eqb rs Loadable)
          then throw (new_error WalletNotReadyError)
          else
            modify (set_adapter (with_connecting true)) ;;;
            if WalletReadyState_eqb rs Loadable then
              let* urlParams := gets (fun s => searchParams (location (host s))) in
              let phantomEncryptionPublicKey :=
                searchParams_get "phantom_encryption_public_key" urlParams in
              let nonce := searchParams_get "nonce" urlParams in
              let data := searchParams_get "data" urlParams in
              if truthy phantomEncryptionPublicKey && truthy nonce && truthy data then
                handleConnectionDeepLinkParams
                  (default "" phantomEncryptionPublicKey) (default "" nonce) (default "" data)
              else
                floating connectUsingDeepLink
            else connect_direct)
       (fun error => emit (error_event error) ;;; throw error))
    (set_adapter (with_connecting false)).

(** `async disconnect()` *)
Definition disconnect : Js unit :=
  let* wallet := gets (fun s => _wallet (adapter s)) in
  match wallet with
  | Some r =>
      wallet_off r ev_disconnect ;;;
      wallet_off r ev_accountChanged ;;;
      modify (set_adapter (with_wallet None)) ;;;
      modify (set_adapter (with_publicKey None)) ;;;
      try_catch (call_wallet r provider_disconnect)
                (fun error => emit (error_event (wrap_error WalletDisconnectionError error)))
  | None => ret tt
  end ;;;
  emit disconnect_event.

(** `SendTransactionOptions`: `{ signers, ...sendOptions }` *)
Record SendTransactionOptions := mkSendTransactionOptions {
  signers : option (list Signer);
  sendOptions : SendOptions
}.

(** `signers?.length && f(signers)` *)
Definition with_signers (signers : option (list Signer))
    (f : list Signer -> Completion Transaction) (t : Transaction) : Js Transaction :=
  match signers with
  | Some (x :: l) => lift (f (x :: l))
  | _ => ret t
  end.

Definition signAndPrepareTransaction
    (transaction : Transaction) (connection : Connection) (options : SendTransactionOptions)
  : Js (Transaction * SendOptions) :=
  try_catch
    (let signers := signers options in
     let sendOptions := sendOptions options in
     let* transaction :=
       if isVersionedTransaction transaction then
         with_signers signers (tx_sign transaction) transaction
       else
         let* pk := gets publicKey in
         let* prepared := lift (prepareTransaction pk transaction connection sendOptions) in
         with_signers signers (tx_partialSign prepared) prepared in
     ret (transaction, sendOptions))
    (fun error =>
       if instanceof_WalletError error then throw error
       else throw (wrap_error WalletSendTransactionError error)).

Definition sendTransaction_params
    (dappPublicKey nonce : bytes) (redirect : string) (encryptedPayload : bytes)
  : list (string * string) :=
  [("dapp_encryption_public_key", bs58_encode dappPublicKey);
   ("nonce", bs58_encode nonce);
   ("redirect_link", redirect);
   ("payload", bs58_encode encryptedPayload)].

Definition sendTransactionUsingDeepLink
    (transaction : Transaction) (connection : Connection) (options : SendTransactionOptions)
  : Js string :=
  let* prepared := signAndPrepareTransaction transaction connection options in
  let preparedTransaction := fst prepared in
  let sendOptions := snd prepared in
  let* dappPublicKey := localStorageGetUint8 _deepLinkPublicKeyStorage in
  let* sharedSecret := localStorageGetUint8 _deepLinkSharedSecretStorage in
  let* session := localStorage_getItem _deepLinkSessionStorage in
  let* nonce := nacl_random 24 in
  let* serializedTransaction := lift (tx_serialize preparedTransaction) in
  let payload := mkPayload (bs58_encode serializedTransaction) sendOptions session in
  let* encryptedPayload :=
    lift (nacl_box_after (JSON_stringify_Payload payload) nonce sharedSecret) in
  let* redirect := makeRedirectUrl in
  let sendTransactionUrl :=
    makeDeepLinkUrl "signAndSendTransaction"
      (sendTransaction_params dappPublicKey nonce redirect encryptedPayload) in
  navigate sendTransactionUrl ;;;
  ret "TransactionSignature".

(** `async sendTransaction(...)`.  In the Loadable branch the promise of
    `sendTransactionUsingDeepLink` is returned without `await`, so the
    surrounding `catch` never sees its rejection. *)
Definition sendTransaction
    (transaction : Transaction) (connection : Connection) (options : SendTransactionOptions)
  : Js string :=
  let* rs := gets readyState in
  if WalletReadyState_eqb rs Loadable then
    sendTransactionUsingDeepLink transaction connection options
  else
    try_catch
      (let* wallet := gets (fun s => _wallet (adapter s)) in
       match wallet with
       | None => throw (new_error WalletNotConnectedError)
       | Some r =>
           try_catch
             (let* prepared := signAndPrepareTransaction transaction connection options in
              let preparedTransaction := fst prepared in
              let sendOptions :=
                set_preflightCommitment
                  (js_or (preflightCommitment (snd prepared)) (connection_commitment connection))
                  (snd prepared) in
              call_wallet r (fun p =>
                provider_signAndSendTransaction p preparedTransaction sendOptions))
             (fun error =>
                if instanceof_WalletError error then throw error
                else throw (wrap_error WalletSendTransactionError error))
       end)
      (fun error => emit (error_event error) ;;; throw error).

Definition signTransaction (transaction : Transaction) : Js Transaction :=
  try_catch
    (let* wallet := gets (fun s => _wallet (adapter s)) in
     match wallet with
     | None => throw (new_error WalletNotConnectedError)
     | Some r =>
         try_catch
           (let* signed := call_wallet r (fun p => provider_signTransaction p transaction) in
            ret (default transaction signed))
           (fun error => throw (wrap_error WalletSignTransactionError error))
     end)
    (fun error => emit (error_event error) ;;; throw error).

Definition signAllTransactions (transactions : list Transaction) : Js (list Transaction) :=
  try_catch
    (let* wallet := gets (fun s => _wallet (adapter s)) in
     match wallet with
     | None => throw (new_error WalletNotConnectedError)
     | Some r =>
         try_catch
           (let* signed :=
              call_wallet r (fun p => provider_signAllTransactions p transactions) in
            ret (default transactions signed))
           (fun error => throw (wrap_error WalletSignTransactionError error))
     end)
    (fun error => emit (error_event error) ;;; throw error).

Definition signMessage (message : bytes) : Js bytes :=
  try_catch
    (let* wallet := gets (fun s => _wallet (adapter s)) in
     match wallet with
     | None => throw (new_error WalletNotConnectedError)
     | Some r =>
         try_catch
           (call_wallet r (fun p => provider_signMessage p message))
           (fun error => throw (wrap_error WalletSignMessageError error))
     end)
    (fun error => emit (error_event error) ;;; throw error).

(** `private _disconnected = () => {...}` *)
Definition _disconnected : Js unit :=
  let* wallet := gets (fun s => _wallet (adapter s)) in
  match wallet with
  | Some r =>
      wallet_off r ev_disconnect ;;;
      wallet_off r ev_accountChanged ;;;
      modify (set_adapter (with_wallet None)) ;;;
      modify (set_adapter (with_publicKey None)) ;;;
      emit (error_event (new_error WalletDisconnectedError)) ;;;
      emit disconnect_event
  | None => ret tt
  end.

(** `private _accountChanged = (newPublicKey) => {...}` *)
Definition _accountChanged (newPublicKey : PublicKey) : Js unit :=
  let* publicKey := gets publicKey in
  match publicKey with
  | None => ret tt
  | Some publicKey =>
      let* fresh :=
        try_catch
          (let* b := lift (PublicKey_toBytes newPublicKey) in
           let* k := lift (PublicKey_new_bytes b) in
           ret (Some k))
          (fun error =>
             emit (error_event (wrap_error WalletPublicKeyError error)) ;;;
             ret None) in
      match fresh with
      | None => ret tt
      | Some newPublicKey =>
          if PublicKey_equals publicKey newPublicKey then ret tt
          else
            modify (set_adapter (with_publicKey (Some newPublicKey))) ;;;
            emit (connect_event newPublicKey)
      end
  end.


(** ** The adapter as a transition system

    What can happen to an adapter after its construction: a caller invokes
    a public method, the extension fires one of its events (which reaches
    the adapter only through a subscribed handler), or the polling strategy
    ticks. *)
Inductive Call :=
| call_connect
| call_disconnect
| call_sendTransaction (t : Transaction) (c : Connection) (o : SendTransactionOptions)
| call_signTransaction (t : Transaction)
| call_signAllTransactions (ts : list Transaction)
| call_signMessage (m : bytes)
| wallet_disconnect (r : WalletRef)
| wallet_accountChanged (r : WalletRef) (k : PublicKey)
| polling_tick.

Definition subscribed (r : WalletRef) (event : PhantomWalletEvent) (s : State) : bool :=
  match wallet_at r (host s) with
  | Some w => bool_decide (event ∈ handlers w)
  | None => false
  end.

Definition step (c : Call) (s : State) : State :=
  match c with
  | call_connect => snd (connect s)
  | call_disconnect => snd (disconnect s)
  | call_sendTransaction t c o => snd (sendTransaction t c o s)
  | call_signTransaction t => snd (signTransaction t s)
  | call_signAllTransactions ts => snd (signAllTransactions ts s)
  | call_signMessage m => snd (signMessage m s)
  | wallet_disconnect r =>
      if subscribed r ev_disconnect s then snd (_disconnected s) else s
  | wallet_accountChanged r k =>
      if subscribed r ev_accountChanged s then snd (_accountChanged k s) else s
  | polling_tick => poll s
  end.

Definition run (calls : list Call) (s : State) : State :=
  foldl (fun s c => step c s) s calls.

(** ** Notions used in the statements *)

(** The test of `connect()` for a response in the current URL. *)
Definition response_present (ps : list (string * string)) : bool :=
  truthy (searchParams_get "phantom_encryption_public_key" ps)
  && truthy (searchParams_get "nonce" ps)
  && truthy (searchParams_get "data" ps).

(** The five query parameters of the protocol. *)
Definition protocol_params : list string :=
  ["phantom_encryption_public_key"; "nonce"; "data"; "errorCode"; "errorMessage"].

(** The state a completed request phase of `connect()` leaves behind. *)
Definition request_sent (s : State) : State :=
  let h := host s in
  let kp := nacl_box_keyPair (entropy h) in
  let connectUrl :=
    makeDeepLinkUrl "connect"
      (connect_params (URL_toString (strip_phantom_params (location h))) (kp_publicKey kp)) in
  mkState
    (mkHost (window_defined h) (document_defined h) (window_phantom_solana h) (window_solana h)
       (location h)
       (<[_deepLinkSecretKeyStorage := Uint8Array_toString (kp_secretKey kp)]>
          (<[_deepLinkPublicKeyStorage := Uint8Array_toString (kp_publicKey kp)]>
             (localStorage h)))
       (navigations h ++ [connectUrl]) (alerts h ++ [connectUrl]) (S (entropy h)))
    (with_connecting false (adapter s))
    (emitted s).

(** The bytes stored under a key, as [localStorageGetUint8] reads them. *)
Definition stored_bytes (key : string) (s : State) : bytes :=
  map Number_Uint8 (split_comma (default "" (localStorage (host s) !! key))).

(** An extension object after `off` for both adapter handlers. *)
Definition detached (w : PhantomWallet) : PhantomWallet :=
  mkPhantomWallet (provider w)
    (filter (fun e => e ≠ ev_accountChanged)
            (filter (fun e => e ≠ ev_disconnect) (handlers w))).

(** What `disconnect()` reports about the extension's own disconnect. *)
Definition disconnection_report (c : Completion unit) : list Event :=
  match c with
  | Normal _ => []
  | Throw e => [error_event (wrap_error WalletDisconnectionError e)]
  end.

(** What the inner `catch` of `sendTransaction` rethrows. *)
Definition rethrown_by_send (e : JsError) : JsError :=
  if instanceof_WalletError e then e
  else WalletError WalletSendTransactionError (default "" (error_message e)) (Some e).

(** [s'] differs from [s] at most in what the deep-link code writes:
    storage, navigations, alerts, entropy, events and a newly adopted key. *)
Definition same_wiring (s s' : State) : Prop :=
  _wallet (adapter s') = _wallet (adapter s) /\
  _readyState (adapter s') = _readyState (adapter s) /\
  detection (adapter s') = detection (adapter s) /\
  _connecting (adapter s') = _connecting (adapter s) /\
  window_phantom_solana (host s') = window_phantom_solana (host s) /\
  window_solana (host s') = window_solana (host s) /\
  (is_Some (_publicKey (adapter s)) -> is_Some (_publicKey (adapter s'))).

(** An adapter that chose the deep link, relative to the host [h0] it was
    built in. *)
Definition deep_link_only (h0 : Host) (s : State) : Prop :=
  _readyState (adapter s) = Loadable /\
  _wallet (adapter s) = None /\
  detection (adapter s) = false /\
  window_phantom_solana (host s) = window_phantom_solana h0 /\
  window_solana (host s) = window_solana h0.

(** An attached extension object comes with an identity. *)
Definition coherent (s : State) : Prop :=
  is_Some (_wallet (adapter s)) -> is_Some (_publicKey (adapter s)).

(** The state a completed handshake leaves behind, before `connecting` is
    reset. *)
Definition handshake_completed (s : State) (shared : bytes) (cd : ConnectData) (k : PublicKey)
  : State :=
  mkState
    (with_localStorage
       (<[_deepLinkSessionStorage := default "undefined" (session cd)]>
          (<[_deepLinkSharedSecretStorage := Uint8Array_toString shared]>
             (localStorage (host s))))
       (host s))
    (with_publicKey (Some k) (adapter s))
    (emitted s ++ [connect_event k]).

(** The storage keys of the adapter. *)
Definition storage_keys : list string :=
  [_deepLinkPublicKeyStorage; _deepLinkSecretKeyStorage;
   _deepLinkSharedSecretStorage; _deepLinkSessionStorage].

(** [s'] has the location and the environment of [s], and the storage of
    [s] outside the adapter's own keys. *)
Definition page_kept (s s' : State) : Prop :=
  location (host s') = location (host s) /\
  window_defined (host s') = window_defined (host s) /\
  document_defined (host s') = document_defined (host s) /\
  forall key, key ∉ storage_keys ->
    localStorage (host s') !! key = localStorage (host s) !! key.

(** [s'] has the storage, navigations, alerts and random source of [s]. *)
Definition host_quiet (s s' : State) : Prop :=
  localStorage (host s') = localStorage (host s) /\
  navigations (host s') = navigations (host s) /\
  alerts (host s') = alerts (host s) /\
  entropy (host s') = entropy (host s).

(** An adapter without a host, idle, in the host [h0] it was built in. *)
Definition unsupported (h0 : Host) (s : State) : Prop :=
  host s = h0 /\
  adapter s = mkAdapter false None None Unsupported false.

End PhantomWalletAdapter.

Arguments Js {Ext} A.
Arguments State {Ext}.
Arguments Host {Ext}.
Arguments Adapter {Ext}.
Arguments Event {Ext}.
Arguments PhantomWallet {Ext}.
Arguments Call {Ext}.
Arguments SendTransactionOptions {Ext}.

(** ** A test double for the imports

    Small total stand-ins for the libraries and the extension, used to run
    the adapter on concrete inputs.  Keys are short byte strings, a box is
    the key and the nonce followed by the plain text (so opening
    authenticates but hides nothing), base-58 is replaced by the identity
    encoding of bytes as characters, and the JSON of the two messages is
    the fields separated by a semicolon. *)
Module Fake.

Record Tx := mkTx { versioned : bool; body : bytes; signed_by : list nat }.

(** The extension double: every method fails with [failure] when it is set. *)
Record Extension := mkExtension {
  ext_connected : bool;
  ext_key : option bytes;
  failure : option JsError
}.

Definition ext_call {A} (a : A) (p : Extension) : Completion A * Extension :=
  match failure p with
  | Some e => (Throw e, p)
  | None => (Normal a, p)
  end.

Definition byte_of_nat (n : nat) : byte := default x00 (Byte.of_nat (n mod 256)).

(** The character of the last decimal digit of [n]. *)
Definition digit (n : nat) : byte := byte_of_nat (48 + n mod 10).

Definition decimal_byte (s : string) : byte :=
  match NilZero.uint_of_string s with
  | Some u => byte_of_nat (Nat.of_uint u)
  | None => x00
  end.

Fixpoint strip_prefix (p l : bytes) : option bytes :=
  match p, l with
  | [], _ => Some l
  | a :: p', b :: l' => if Byte.eqb a b then strip_prefix p' l' else None
  | _ :: _, [] => None
  end.

Fixpoint split_semicolon (l : bytes) : option (bytes * bytes) :=
  match l with
  | [] => None
  | b :: l' =>
      if Byte.eqb b x3b then Some ([], l')
      else match split_semicolon l' with
           | Some (h, t) => Some (b :: h, t)
           | None => None
           end
  end.

Definition parse_ConnectData (l : bytes) : Completion ConnectData :=
  match split_semicolon l with
  | Some (k, t) =>
      Normal (mkConnectData (Some (String.string_of_list_byte k)) (Some (String.string_of_list_byte t)))
  | None => Throw (Foreign (Some "Unexpected end of JSON input"))
  end.

Definition stringify_Payload (p : Payload) : bytes :=
  String.list_byte_of_string (p_transaction p ++ ";" ++ default "null" (p_session p)).

Definition params_toString (ps : list (string * string)) : string :=
  String.concat "&" (map (fun kv => fst kv ++ "=" ++ snd kv) ps).

Definition new_PublicKey (k : option string) : Completion string :=
  match k with
  | Some (String c k') => Normal (String c k')
  | _ => Throw (Foreign (Some "Invalid public key input"))
  end.

(** Like the base class: a legacy transaction needs an identity. *)
Definition prepare (k : option string) (t : Tx) : Completion Tx :=
  match k with
  | Some _ => Normal t
  | None => Throw (new_error WalletNotConnectedError)
  end.

Definition externals : Externals := {|
  Transaction := Tx;
  Signer := nat;
  Connection := option string;
  PublicKey := string;
  isVersionedTransaction := versioned;
  tx_sign t l := Normal (mkTx (versioned t) (body t) (signed_by t ++ l)%list);
  tx_partialSign t l := Normal (mkTx (versioned t) (body t) (signed_by t ++ l)%list);
  tx_serialize t := Normal (body t);
  connection_commitment c := c;
  PublicKey_new_string := new_PublicKey;
  PublicKey_new_bytes b := Normal (String.string_of_list_byte b);
  PublicKey_toBytes k := Normal (String.list_byte_of_string k);
  PublicKey_equals := String.eqb;
  prepareTransaction k t _ _ := prepare k t;
  nacl_box_keyPair n := mkKeyPair [x70; x6b; digit n] [x73; x6b; digit n];
  nacl_randomBytes len n := repeat (digit n) len;
  nacl_box_before pk sk := Normal (pk ++ sk)%list;
  nacl_box_after msg nonce key := Normal (key ++ nonce ++ msg)%list;
  nacl_box_open_after box nonce key := Normal (strip_prefix (key ++ nonce)%list box);
  bs58_encode := String.string_of_list_byte;
  bs58_decode s := Normal (String.list_byte_of_string s);
  Number_Uint8 := decimal_byte;
  JSON_parse_ConnectData := parse_ConnectData;
  JSON_stringify_Payload := stringify_Payload;
  URL_toString u := url_base u ++ "?" ++ params_toString (searchParams u) ++ url_hash u;
  URLSearchParams_toString := params_toString;
  Provider := Extension;
  provider_isPhantom _ := true;
  provider_isConnected := ext_connected;
  provider_publicKey p := Normal <$> ext_key p;
  provider_connect p :=
    match failure p with
    | Some e => (Throw e, p)
    | None => (Normal tt, mkExtension true (ext_key p) None)
    end;
  provider_disconnect p :=
    match failure p with
    | Some e => (Throw e, p)
    | None => (Normal tt, mkExtension false (ext_key p) None)
    end;
  provider_signTransaction p t := ext_call (Some t) p;
  provider_signAllTransactions p ts := ext_call (Some ts) p;
  provider_signAndSendTransaction p t _ := ext_call "5VERv8NMvzbJMEkV8xnrLkEaWRtSz9CosKDYjCJjBRnb" p;
  provider_signMessage p m := ext_call m p
|}.

#[local] Existing Instance externals.

(** A page at https://dapp.example/ with the given query and storage. *)
Definition page (query : list (string * string)) (storage : gmap string string)
  : @Host externals :=
  mkHost true true None None (mkUrl "https://dapp.example/" query "") storage [] [] 7.

(** The secret key of the pending request, the bytes of "sk7". *)
Definition request_sk : bytes := [x73; x6b; x37].

(** The wallet app's side of a handshake with the pending request key
    [sk]: its public key, a nonce and the boxed answer. *)
Definition wallet_pk : bytes := [x57].
Definition wallet_nonce : bytes := [x4e].

Definition sealed (sk : bytes) (addr tok : string) : bytes :=
  ((wallet_pk ++ sk) ++ wallet_nonce
     ++ String.list_byte_of_string (addr ++ ";" ++ tok)%string)%list.

(** The same box with its first byte changed. *)
Definition forged (sk : bytes) (addr tok : string) : bytes :=
  x58 :: tail (sealed sk addr tok).

Definition response (box : bytes) : list (string * string) :=
  [("phantom_encryption_public_key", String.string_of_list_byte wallet_pk);
   ("nonce", String.string_of_list_byte wallet_nonce);
   ("data", String.string_of_list_byte box)].

Definition answer (sk : bytes) (addr tok : string) : list (string * string) :=
  response (sealed sk addr tok).

Definition tampered (sk : bytes) (addr tok : string) : list (string * string) :=
  response (forged sk addr tok).

Definition pending_request : gmap string string :=
  <[_deepLinkSecretKeyStorage := "115,107,55"]>
    (<[_deepLinkPublicKeyStorage := "112,107,55"]> ∅).

Definition without_session : gmap string string :=
  <[_deepLinkSharedSecretStorage := "87,115,107,55"]> pending_request.

Definition established_session : gmap string string :=
  <[_deepLinkSessionStorage := "tok1"]> without_session.

Definition versioned_tx : Tx := mkTx true [x01; x02; x03] [].
Definition legacy_tx : Tx := mkTx false [x01; x02; x03] [].

Definition no_options : @SendTransactionOptions externals :=
  mkSendTransactionOptions None (mkSendOptions None None None None).


(** A page into which the extension injected `window.solana`;
    [fails] makes every method of the extension throw. *)
Definition extension (fails : option JsError) : @Provider externals :=
  mkExtension true (Some [x61; x64; x64; x72]) fails.

Definition extension_page (fails : option JsError) (subscriptions : list PhantomWalletEvent)
  : @Host externals :=
  mkHost true true None
    (Some (mkPhantomWallet (extension fails) subscriptions))
    (mkUrl "https://dapp.example/" [] "") ∅ [] [] 7.

(** An adapter attached to that extension. *)
Definition attached (fails : option JsError) : @State externals :=
  mkState (extension_page fails [ev_disconnect; ev_accountChanged])
          (mkAdapter false (Some WindowSolana) (Some "addr") Installed false) [].

Definition rejected : JsError :=
  WalletError WalletSignTransactionError "User rejected the request." None.

(** A page the wallet app has just redirected back to with a valid answer. *)
Definition answered : @State externals :=
  constructor (page (answer request_sk "addr" "tok1") pending_request).

(** The same with a forged payload. *)
Definition forged_answer : @State externals :=
  constructor (page (tampered request_sk "addr" "tok1") pending_request).

(** A page the wallet app redirected back to with a refusal. *)
Definition refused : @State externals :=
  constructor
    (page [("ref", "1"); ("errorCode", "4001");
                ("errorMessage", "User rejected the request.")] ∅).

(** A freshly loaded page whose storage still holds an earlier session. *)
Definition reloaded : @State externals := constructor (page [] established_session).

(** An adapter in the middle of a `connect()`. *)
Definition busy : @State externals :=
  mkState (page [] ∅) (mkAdapter true None None Loadable false) [].

(** A host with `window` and without `document`. *)
Definition headless : @Host externals :=
  mkHost true false None None (mkUrl "https://dapp.example/" [] "") ∅ [] [] 7.

(** An extension that is not connected and refuses every call. *)
Definition locked : @Provider externals :=
  mkExtension false (Some [x61; x64; x64; x72]) (Some rejected).

(** An adapter that detected the injected extension [p] and is not attached
    to it. *)
Definition installed (p : @Provider externals) : @State externals :=
  mkState
    (mkHost true true None (Some (mkPhantomWallet p []))
       (mkUrl "https://dapp.example/" [] "") ∅ [] [] 7)
    (mkAdapter false None None Installed false) [].

(** A response on a page whose storage holds no pending request. *)
Definition unexpected_answer : @State externals :=
  constructor (page (answer request_sk "addr" "tok1") ∅).

End Fake.

(** ** Proofs *)

(** Unfolds the monad, every method and the record accessors, and nothing
    of the libraries underneath. *)
Ltac js_unfold :=
  cbv beta iota zeta delta
    [bind ret throw lift try_catch try_finally floating gets modify emit
     connect connect_direct disconnect sendTransaction sendTransactionUsingDeepLink
     signAndPrepareTransaction signTransaction signAllTransactions signMessage
     _disconnected _accountChanged handleConnectionDeepLinkParams connectUsingDeepLink
     localStorageGetUint8 localStorageSet localStorage_setItem localStorage_getItem
     makeRedirectUrl nacl_keyPair nacl_random alert navigate not_window call_wallet
     wallet_on wallet_off with_signers poll detect step
     connected connecting readyState publicKey
     set_host set_adapter with_connecting with_wallet with_publicKey with_readyState
     with_detection with_localStorage with_navigations with_alerts with_entropy
     with_wallet_at wallet_at
     host adapter emitted _connecting _wallet _publicKey _readyState detection
     window_defined document_defined window_phantom_solana window_solana location
     localStorage navigations alerts entropy fst snd
     WalletReadyState_eqb negb andb orb].

(** The same, keeping the deep-link procedures, the direct connection and
    the preparation of a transaction folded. *)
Ltac js_unfold_top :=
  cbv beta iota zeta delta
    [bind ret throw lift try_catch try_finally floating gets modify emit
     connect disconnect sendTransaction
     signTransaction signAllTransactions signMessage
     _disconnected _accountChanged not_window call_wallet
     wallet_on wallet_off poll detect step
     connected connecting readyState publicKey
     set_host set_adapter with_connecting with_wallet with_publicKey with_readyState
     with_detection with_localStorage with_navigations with_alerts with_entropy
     with_wallet_at wallet_at
     host adapter emitted _connecting _wallet _publicKey _readyState detection
     window_defined document_defined window_phantom_solana window_solana location
     localStorage navigations alerts entropy fst snd
     WalletReadyState_eqb negb andb orb].

(** Case analysis on the innermost scrutinee the goal is stuck on. *)
Ltac js_case :=
  match goal with
  | |- context [match ?x with _ => _ end] =>
      lazymatch x with
      | context [match _ with _ => _ end] => fail
      | _ => destruct x eqn:?
      end
  end.

Ltac js_cases := repeat (js_case; js_unfold; simpl).

#[local] Open Scope list_scope.

Section Properties.
Context `{Ext : Externals}.

(** *** The monad and the small procedures *)

Lemma WalletReadyState_eqb_eq a b : WalletReadyState_eqb a b = true <-> a = b.
Proof. destruct a, b; simpl; split; congruence. Qed.

Lemma bind_Normal {A B} (m : Js A) (k : A -> Js B) (s : State) a s1 :
  m s = (Normal a, s1) -> bind m k s = k a s1.
Proof. unfold bind. intros ->. reflexivity. Qed.

Lemma bind_Throw {A B} (m : Js A) (k : A -> Js B) (s : State) e s1 :
  m s = (Throw e, s1) -> bind m k s = (Throw e, s1).
Proof. unfold bind. intros ->. reflexivity. Qed.


Lemma localStorageGetUint8_missing key (s : State) :
  truthy (localStorage (host s) !! key) = false ->
  localStorageGetUint8 key s
  = (Throw (key_not_stored key),
     mkState (host s) (adapter s) (emitted s ++ [error_event (key_not_stored key)])).
Proof.
  intros H. unfold localStorageGetUint8, localStorage_getItem, bind, gets.
  rewrite H. reflexivity.
Qed.

Lemma localStorageGetUint8_stored key (s : State) :
  truthy (localStorage (host s) !! key) = true ->
  localStorageGetUint8 key s = (Normal (stored_bytes key s), s).
Proof.
  intros H. unfold localStorageGetUint8, localStorage_getItem, bind, gets.
  rewrite H. reflexivity.
Qed.

Lemma searchParams_get_delete name name' ps :
  searchParams_get name (searchParams_delete name' ps)
  = if decide (name = name') then None else searchParams_get name ps.
Proof.
  unfold searchParams_delete.
  induction ps as [|[k v] ps IH]; simpl.
  - destruct (decide _); reflexivity.
  - rewrite filter_cons. simpl. destruct (decide (k ≠ name')) as [Hk|Hk]; simpl.
    + destruct (String.eqb_spec k name) as [->|Hn].
      * destruct (decide (name = name')); [congruence | reflexivity].
      * apply IH.
    + apply dec_stable in Hk. subst k. rewrite IH.
      destruct (decide (name = name')) as [->|Hn]; [reflexivity|].
      destruct (String.eqb_spec name' name); [congruence | reflexivity].
Qed.

(** [makeRedirectUrl] keeps the URL and drops exactly the pairs named by one
    of the five protocol parameters. *)
Lemma strip_phantom_params_spec (u : Url) :
  url_base (strip_phantom_params u) = url_base u /\
  url_hash (strip_phantom_params u) = url_hash u /\
  searchParams (strip_phantom_params u)
    = filter (fun kv => fst kv ∉ protocol_params) (searchParams u) /\
  forall name, searchParams_get name (searchParams (strip_phantom_params u))
    = if decide (name ∈ protocol_params) then None
      else searchParams_get name (searchParams u).
Proof.
  split_and!; try reflexivity.
  - unfold strip_phantom_params, url_delete, searchParams_delete. simpl.
    rewrite !list_filter_filter. apply list_filter_iff. intros [k v]. simpl.
    unfold protocol_params. rewrite !not_elem_of_cons.
    pose proof (not_elem_of_nil k). tauto.
  - intros name. unfold strip_phantom_params, url_delete. simpl.
    rewrite !searchParams_get_delete. unfold protocol_params.
    repeat (destruct (decide (name = _)) as [->|?]; [reflexivity|]).
    destruct (decide _) as [H|H]; [|reflexivity].
    rewrite !elem_of_cons in H. pose proof (not_elem_of_nil name). tauto.
Qed.


(** *** What each procedure leaves alone *)

Lemma signAndPrepareTransaction_state t c o (s : State) :
  snd (signAndPrepareTransaction t c o s) = s.
Proof. destruct s as [h a ev]. js_unfold. js_cases; reflexivity. Qed.

(** Whatever [signAndPrepareTransaction] throws is a [WalletError]. *)
Lemma signAndPrepareTransaction_throws t c o (s : State) e :
  fst (signAndPrepareTransaction t c o s) = Throw e -> instanceof_WalletError e = true.
Proof.
  destruct s as [h a ev]. js_unfold. js_cases; simpl; intros [= <-]; auto.
Qed.

Lemma handleConnectionDeepLinkParams_wiring a b c (s : State) :
  same_wiring s (snd (handleConnectionDeepLinkParams a b c s)).
Proof.
  destruct s as [h [cg w pk rs d] ev]. destruct h. unfold same_wiring.
  js_unfold. js_cases; simpl; split_and!; eauto.
Qed.

Lemma connectUsingDeepLink_wiring (s : State) :
  same_wiring s (snd (connectUsingDeepLink s)).
Proof.
  destruct s as [h [cg w pk rs d] ev]. destruct h. unfold same_wiring.
  js_unfold. simpl. split_and!; eauto.
Qed.

Lemma sendTransactionUsingDeepLink_wiring t c o (s : State) :
  same_wiring s (snd (sendTransactionUsingDeepLink t c o s)).
Proof.
  unfold sendTransactionUsingDeepLink, bind at 1.
  pose proof (signAndPrepareTransaction_state t c o s) as Hst.
  destruct (signAndPrepareTransaction t c o s) as [[[t' so]|e] s0]; simpl in Hst; subst s0.
  - destruct s as [h [cg w pk rs d] ev]. destruct h. unfold same_wiring.
    js_unfold. js_cases; simpl; split_and!; eauto.
  - unfold same_wiring. simpl. split_and!; auto.
Qed.

Lemma connect_direct_coherent (s : State) : coherent s -> coherent (snd (connect_direct s)).
Proof.
  destruct s as [h [cg w pk rs d] ev]. destruct h. unfold coherent. simpl. intros H.
  js_unfold. js_cases; simpl; auto; intros _; eexists; reflexivity.
Qed.

(** Replaces a folded procedure applied to a state by its result, keeping
    what the lemmas above say about that result. *)
Ltac js_block :=
  match goal with
  | |- context [handleConnectionDeepLinkParams ?a ?b ?c ?s] =>
      generalize (handleConnectionDeepLinkParams_wiring a b c s);
      destruct (handleConnectionDeepLinkParams a b c s) as [[[]|?] [[] [] ?]]
  | |- context [connectUsingDeepLink ?s] =>
      generalize (connectUsingDeepLink_wiring s);
      destruct (connectUsingDeepLink s) as [[[]|?] [[] [] ?]]
  | |- context [sendTransactionUsingDeepLink ?a ?b ?c ?s] =>
      generalize (sendTransactionUsingDeepLink_wiring a b c s);
      destruct (sendTransactionUsingDeepLink a b c s) as [? [[] [] ?]]
  | |- context [connect_direct ?s] =>
      generalize (connect_direct_coherent s);
      destruct (connect_direct s) as [[[]|?] [[] [] ?]]
  | |- context [signAndPrepareTransaction ?a ?b ?c ?s] =>
      generalize (signAndPrepareTransaction_state a b c s);
      destruct (signAndPrepareTransaction a b c s) as [[[? ?]|?] ?];
      cbn [snd]; intros ->
  end.

Ltac js_close :=
  unfold same_wiring, coherent, deep_link_only in *; simpl in *;
  intros; destruct_and?; subst; try tauto;
  try (exfalso; eapply is_Some_None; eassumption);
  try (eexists; reflexivity);
  try (match goal with H : _ -> ?g |- ?g => apply H end);
  try (match goal with H : _ -> ?g |- ?g => apply H end).

(** *** Invariants of the transition system *)

Lemma constructor_deep_link_only (h : Host) :
  window_defined h = true -> document_defined h = true ->
  deep_link_only h (constructor h).
Proof.
  intros Hw Hd. unfold constructor, initial_readyState, deep_link_only.
  rewrite Hw, Hd. simpl. auto.
Qed.

Lemma step_deep_link_only h0 c s : deep_link_only h0 s -> deep_link_only h0 (step c s).
Proof.
  destruct s as [h [cg w pk rs d] ev]. unfold deep_link_only at 1. simpl.
  intros (-> & -> & -> & H1 & H2). destruct h. simpl in *. subst.
  destruct c; js_unfold_top; repeat first [js_block | js_case]; js_close; auto.
Qed.

Lemma run_deep_link_only h0 calls s : deep_link_only h0 s -> deep_link_only h0 (run calls s).
Proof.
  revert s. induction calls as [|c calls IH]; intros s Hs; simpl.
  - assumption.
  - apply IH, step_deep_link_only, Hs.
Qed.

Lemma constructor_coherent h : coherent (constructor h).
Proof.
  unfold constructor, coherent. destruct (initial_readyState h); simpl; intros [? [=]].
Qed.



(** *** disconnect *)


Lemma disconnect_with_wallet (s : State) r w :
  _wallet (adapter s) = Some r -> wallet_at r (host s) = Some w ->
  disconnect s =
    (Normal tt,
     mkState
       (with_wallet_at r (mkPhantomWallet (snd (provider_disconnect (provider w)))
                                          (handlers (detached w))) (host s))
       (with_publicKey None (with_wallet None (adapter s)))
       (emitted s ++ disconnection_report (fst (provider_disconnect (provider w)))
          ++ [disconnect_event])).
Proof.
  destruct s as [h [cg w0 pk rs d] ev]. simpl. intros -> Hw.
  destruct h, r; simpl in Hw; subst; js_unfold;
    unfold detached, disconnection_report; simpl;
    destruct (provider_disconnect (provider w)) as [[[]|e] p]; simpl;
    rewrite <- ?List.app_assoc; reflexivity.
Qed.

(** A reference to an object that is gone (no state the adapter reaches has
    one): the method call itself fails, which is reported like any other
    failure of the extension's disconnect. *)
Lemma disconnect_dangling (s : State) r :
  _wallet (adapter s) = Some r -> wallet_at r (host s) = None ->
  disconnect s =
    (Normal tt,
     mkState (host s) (with_publicKey None (with_wallet None (adapter s)))
       (emitted s
          ++ [error_event (wrap_error WalletDisconnectionError
                             (Foreign (Some "Cannot read properties of undefined")));
              disconnect_event])).
Proof.
  destruct s as [h [cg w0 pk rs d] ev]. simpl. intros -> Hw.
  destruct h, r; simpl in Hw; subst; js_unfold; simpl;
    rewrite <- ?List.app_assoc; reflexivity.
Qed.


(** *** The ready state *)

(** C9: in an environment with `window` and `document`, the constructor
    selects Loadable, and whatever is called afterwards the ready state
    stays Loadable (so never Installed), no polling detector is registered
    (a polling tick does nothing), no extension object is ever attached as
    `_wallet` and the injected objects are left as they were: the direct
    branch of `connect()` is never taken. *)
Theorem readyState_always_Loadable (h : Host) (calls : list Call) :
  window_defined h = true -> document_defined h = true ->
  emitted (constructor h) = [readyStateChange Loadable] /\
  let s := run calls (constructor h) in
  readyState s = Loadable /\
  readyState s <> Installed /\
  detection (adapter s) = false /\
  poll s = s /\
  _wallet (adapter s) = None /\
  window_phantom_solana (host s) = window_phantom_solana h /\
  window_solana (host s) = window_solana h.
Proof.
  intros Hw Hd. split.
  - unfold constructor, initial_readyState. rewrite Hw, Hd. reflexivity.
  - destruct (run_deep_link_only h calls _ (constructor_deep_link_only h Hw Hd))
      as (Hr & Hn & Hp & H1 & H2).
    simpl. unfold readyState, poll. rewrite Hr, Hp. split_and!; auto; discriminate.
Qed.

(** *** connect, request phase *)

Lemma connect_sends_request (s : State) :
  readyState s = Loadable -> connected s = false -> connecting s = false ->
  window_defined (host s) = true ->
  response_present (searchParams (location (host s))) = false ->
  connect s = (Normal tt, request_sent s).
Proof.
  intros Hr Hc Hg Hw Hp.
  cbv beta iota zeta delta [connect try_finally try_catch bind gets ret not_window].
  rewrite Hc, Hg. cbn [orb]. rewrite Hw. cbn [orb]. rewrite Hr.
  cbn [WalletReadyState_eqb negb andb].
  unfold response_present in Hp.
  cbv beta iota zeta delta [modify bind gets set_adapter]. cbn [host adapter].
  rewrite Hp.
  destruct s as [h a ev]. destruct h, a. reflexivity.
Qed.


(** C5, as amended: `connect()` never reads errorCode or errorMessage.  When
    the current URL carries them and not the full success triple, a
    deep-link `connect()` returns normally, emits nothing (no error event)
    and leaves the identity as it was; it starts a new request instead: a
    new key pair is stored and the browser is sent to the connect URL, whose
    redirect link has the two failure parameters removed. *)
Theorem failure_parameters_ignored (s : State) code message :
  searchParams_get "errorCode" (searchParams (location (host s))) = Some code ->
  searchParams_get "errorMessage" (searchParams (location (host s))) = Some message ->
  response_present (searchParams (location (host s))) = false ->
  readyState s = Loadable -> connected s = false -> connecting s = false ->
  window_defined (host s) = true ->
  let s' := snd (connect s) in
  let stripped := strip_phantom_params (location (host s)) in
  fst (connect s) = Normal tt /\
  emitted s' = emitted s /\
  publicKey s' = publicKey s /\
  s' = request_sent s /\
  navigations (host s')
  = navigations (host s)
      ++ [makeDeepLinkUrl "connect"
            (connect_params (URL_toString stripped)
               (kp_publicKey (nacl_box_keyPair (entropy (host s)))))] /\
  searchParams_get "errorCode" (searchParams stripped) = None /\
  searchParams_get "errorMessage" (searchParams stripped) = None.
Proof.
  intros _ _ Hp Hr Hc Hg Hw. simpl.
  rewrite (connect_sends_request s Hr Hc Hg Hw Hp). simpl.
  destruct (strip_phantom_params_spec (location (host s))) as (_ & _ & _ & Hget).
  split_and!; try reflexivity; rewrite Hget; reflexivity.
Qed.

(** *** connect, completion phase *)

(** C2, as amended: the shared secret is stored as soon as it is derived,
    before the payload is opened.  When opening fails, the call throws the
    "Unable to decrypt connection params" connection error after emitting
    it; by then the sharedSecret entry holds the newly derived secret, while
    the session entry and the identity are as before. *)
Theorem decryption_failure (s : State) pk nonce data theirs shared box n :
  truthy (localStorage (host s) !! _deepLinkSecretKeyStorage) = true ->
  bs58_decode pk = Normal theirs ->
  nacl_box_before theirs (stored_bytes _deepLinkSecretKeyStorage s) = Normal shared ->
  bs58_decode data = Normal box ->
  bs58_decode nonce = Normal n ->
  nacl_box_open_after box n shared = Normal None ->
  let s' := snd (handleConnectionDeepLinkParams pk nonce data s) in
  fst (handleConnectionDeepLinkParams pk nonce data s) = Throw unable_to_decrypt /\
  localStorage (host s')
    = <[_deepLinkSharedSecretStorage := Uint8Array_toString shared]> (localStorage (host s)) /\
  localStorage (host s') !! _deepLinkSharedSecretStorage = Some (Uint8Array_toString shared) /\
  localStorage (host s') !! _deepLinkSessionStorage
    = localStorage (host s) !! _deepLinkSessionStorage /\
  publicKey s' = publicKey s /\
  emitted s' = emitted s ++ [error_event unable_to_decrypt].
Proof.
  intros Hsk Hpk Hbefore Hdata Hnonce Hopen.
  unfold handleConnectionDeepLinkParams.
  rewrite (bind_Normal _ _ _ _ _ (localStorageGetUint8_stored _ s Hsk)).
  rewrite (bind_Normal (lift _) _ _ theirs _) by (unfold lift; rewrite Hpk; reflexivity).
  rewrite (bind_Normal (lift _) _ _ shared _)
    by (unfold lift; rewrite Hbefore; reflexivity).
  rewrite (bind_Normal (localStorageSet _ _) _ _ _ _ eq_refl).
  rewrite (bind_Normal (lift _) _ _ box _) by (unfold lift; rewrite Hdata; reflexivity).
  rewrite (bind_Normal (lift _) _ _ n _) by (unfold lift; rewrite Hnonce; reflexivity).
  rewrite (bind_Normal (lift _) _ _ None _) by (unfold lift; rewrite Hopen; reflexivity).
  destruct s as [h a ev]. destruct h. simpl.
  split_and!; try reflexivity.
  - apply lookup_insert_eq.
  - apply lookup_insert_ne. discriminate.
Qed.

(** A successful completion phase adopts an identity and touches neither
    `_wallet` nor the injected objects. *)
Lemma handshake_success pk nonce data (s : State) :
  fst (handleConnectionDeepLinkParams pk nonce data s) = Normal tt ->
  let s' := snd (handleConnectionDeepLinkParams pk nonce data s) in
  is_Some (publicKey s') /\ connected s' = connected s /\
  _wallet (adapter s') = _wallet (adapter s).
Proof.
  destruct s as [h [cg w pk0 rs d] ev]. destruct h.
  js_unfold. js_cases; simpl; try discriminate; intros _; split_and!; eauto.
Qed.

(** *** connected *)


(** *** Sending over the deep link *)

Lemma sendTransaction_Loadable t c o (s : State) :
  readyState s = Loadable ->
  sendTransaction t c o s = sendTransactionUsingDeepLink t c o s.
Proof.
  intros Hr. unfold sendTransaction, bind, gets. rewrite Hr. reflexivity.
Qed.

(** C10: once the transaction is prepared, a deep-link dispatch whose stored
    dapp public key is missing (or empty) emits and throws "Key ... not
    stored" for that key and changes nothing else, in particular it does not
    navigate; the same for a missing shared secret.  A missing session token
    is no failure: the payload that gets encrypted has a null session, the
    browser is sent to the signAndSendTransaction URL built from it, and no
    event is emitted. *)
Theorem dispatch_storage_keys (s : State) t c o t' so :
  fst (signAndPrepareTransaction t c o s) = Normal (t', so) ->
  let ls := localStorage (host s) in
  let report key :=
    mkState (host s) (adapter s) (emitted s ++ [error_event (key_not_stored key)]) in
  (truthy (ls !! _deepLinkPublicKeyStorage) = false ->
     sendTransactionUsingDeepLink t c o s
     = (Throw (key_not_stored _deepLinkPublicKeyStorage), report _deepLinkPublicKeyStorage)) /\
  (truthy (ls !! _deepLinkPublicKeyStorage) = true ->
   truthy (ls !! _deepLinkSharedSecretStorage) = false ->
     sendTransactionUsingDeepLink t c o s
     = (Throw (key_not_stored _deepLinkSharedSecretStorage),
        report _deepLinkSharedSecretStorage)) /\
  (truthy (ls !! _deepLinkPublicKeyStorage) = true ->
   truthy (ls !! _deepLinkSharedSecretStorage) = true ->
   ls !! _deepLinkSessionStorage = None ->
   forall serialized encrypted,
     let nonce := nacl_randomBytes 24 (entropy (host s)) in
     tx_serialize t' = Normal serialized ->
     nacl_box_after
       (JSON_stringify_Payload (mkPayload (bs58_encode serialized) so None))
       nonce (stored_bytes _deepLinkSharedSecretStorage s) = Normal encrypted ->
     fst (sendTransactionUsingDeepLink t c o s) = Normal "TransactionSignature" /\
     navigations (host (snd (sendTransactionUsingDeepLink t c o s)))
     = navigations (host s)
         ++ [makeDeepLinkUrl "signAndSendTransaction"
               (sendTransaction_params (stored_bytes _deepLinkPublicKeyStorage s) nonce
                  (URL_toString (strip_phantom_params (location (host s)))) encrypted)] /\
     emitted (snd (sendTransactionUsingDeepLink t c o s)) = emitted s).
Proof.
  intros Hprep. pose proof (signAndPrepareTransaction_state t c o s) as Hst.
  destruct (signAndPrepareTransaction t c o s) as [r s0] eqn:Hsp.
  simpl in Hprep, Hst. subst r s0. simpl.
  split_and!.
  - intros Hpk. unfold sendTransactionUsingDeepLink.
    rewrite (bind_Normal _ _ _ _ _ Hsp).
    rewrite (bind_Throw _ _ _ _ _ (localStorageGetUint8_missing _ s Hpk)). reflexivity.
  - intros Hpk Hss. unfold sendTransactionUsingDeepLink.
    rewrite (bind_Normal _ _ _ _ _ Hsp).
    rewrite (bind_Normal _ _ _ _ _ (localStorageGetUint8_stored _ s Hpk)).
    rewrite (bind_Throw _ _ _ _ _ (localStorageGetUint8_missing _ s Hss)). reflexivity.
  - intros Hpk Hss Hse serialized encrypted Hser Henc.
    unfold sendTransactionUsingDeepLink.
    rewrite (bind_Normal _ _ _ _ _ Hsp).
    rewrite (bind_Normal _ _ _ _ _ (localStorageGetUint8_stored _ s Hpk)).
    rewrite (bind_Normal _ _ _ _ _ (localStorageGetUint8_stored _ s Hss)).
    unfold localStorage_getItem. rewrite (bind_Normal (gets _) _ s None s)
      by (unfold gets; rewrite Hse; reflexivity).
    rewrite (bind_Normal (nacl_random 24) _ s _ _ eq_refl).
    rewrite (bind_Normal (lift _) _ _ serialized _)
      by (unfold lift; simpl; rewrite Hser; reflexivity).
    rewrite (bind_Normal (lift _) _ _ encrypted _)
      by (unfold lift; simpl; rewrite Henc; reflexivity).
    destruct s as [h a ev]. destruct h. split_and!; reflexivity.
Qed.


(** *** Failures of the delegate *)

(** Without an attached extension object the three signing methods, and
    `sendTransaction` outside the Loadable state, emit and throw
    WalletNotConnectedError; with [coherent] that covers every state whose
    publicKey is absent. *)
Lemma not_connected_without_wallet (s : State) :
  _wallet (adapter s) = None ->
  let thrown := new_error WalletNotConnectedError in
  let reported := mkState (host s) (adapter s) (emitted s ++ [error_event thrown]) in
  (forall t, signTransaction t s = (Throw thrown, reported)) /\
  (forall ts, signAllTransactions ts s = (Throw thrown, reported)) /\
  (forall m, signMessage m s = (Throw thrown, reported)) /\
  (forall t c o, readyState s <> Loadable ->
     sendTransaction t c o s = (Throw thrown, reported)).
Proof.
  destruct s as [h [cg w pk rs d] ev]. simpl. intros ->.
  split_and!; try reflexivity.
  intros t c o Hrs. unfold readyState in Hrs. simpl in Hrs.
  destruct rs; try congruence; reflexivity.
Qed.

(** C6, as amended: with an extension object attached, a failure [e] of the
    extension's signTransaction, signAllTransactions or signMessage is
    always wrapped, whether or not [e] is a WalletError, into a
    WalletSignTransactionError (WalletSignMessageError for signMessage)
    whose message is that of [e] and whose cause is [e].  Only
    `sendTransaction`, on its extension path, lets a WalletError pass
    unchanged and wraps any other failure into a
    WalletSendTransactionError with the same message and [e] as cause;
    failures of the preparation step reach the caller as the WalletError
    they already are.  In each case the thrown error is emitted first. *)
Theorem delegate_failures (s : State) r w :
  _wallet (adapter s) = Some r -> wallet_at r (host s) = Some w ->
  (forall t e p, provider_signTransaction (provider w) t = (Throw e, p) ->
     let thrown :=
       WalletError WalletSignTransactionError (default "" (error_message e)) (Some e) in
     fst (signTransaction t s) = Throw thrown /\
     emitted (snd (signTransaction t s)) = emitted s ++ [error_event thrown]) /\
  (forall ts e p, provider_signAllTransactions (provider w) ts = (Throw e, p) ->
     let thrown :=
       WalletError WalletSignTransactionError (default "" (error_message e)) (Some e) in
     fst (signAllTransactions ts s) = Throw thrown /\
     emitted (snd (signAllTransactions ts s)) = emitted s ++ [error_event thrown]) /\
  (forall m e p, provider_signMessage (provider w) m = (Throw e, p) ->
     let thrown :=
       WalletError WalletSignMessageError (default "" (error_message e)) (Some e) in
     fst (signMessage m s) = Throw thrown /\
     emitted (snd (signMessage m s)) = emitted s ++ [error_event thrown]) /\
  (forall t c o t' so e p,
     readyState s <> Loadable ->
     fst (signAndPrepareTransaction t c o s) = Normal (t', so) ->
     provider_signAndSendTransaction (provider w) t'
       (set_preflightCommitment
          (js_or (preflightCommitment so) (connection_commitment c)) so) = (Throw e, p) ->
     fst (sendTransaction t c o s) = Throw (rethrown_by_send e) /\
     emitted (snd (sendTransaction t c o s))
     = emitted s ++ [error_event (rethrown_by_send e)]) /\
  (forall t c o e,
     readyState s <> Loadable ->
     fst (signAndPrepareTransaction t c o s) = Throw e ->
     instanceof_WalletError e = true /\
     fst (sendTransaction t c o s) = Throw e /\
     emitted (snd (sendTransaction t c o s)) = emitted s ++ [error_event e]).
Proof.
  intros Hr Hw.
  destruct s as [h [cg w0 pk rs d] ev]. simpl in Hr. subst w0.
  split_and!.
  - intros t e p H. destruct h, r; simpl in Hw; subst; js_unfold; rewrite H; simpl; auto.
  - intros t e p H. destruct h, r; simpl in Hw; subst; js_unfold; rewrite H; simpl; auto.
  - intros t e p H. destruct h, r; simpl in Hw; subst; js_unfold; rewrite H; simpl; auto.
  - intros t c o t' so e p Hrs Hprep H.
    unfold readyState in Hrs. simpl in Hrs.
    pose proof (signAndPrepareTransaction_state t c o
                  (mkState h (mkAdapter cg (Some r) pk rs d) ev)) as Hst.
    destruct (signAndPrepareTransaction t c o _) as [res s0] eqn:Hsp.
    simpl in Hprep, Hst. subst res s0.
    destruct h, r, rs; try congruence; simpl in Hw; subst;
      js_unfold_top; rewrite Hsp; js_unfold_top; rewrite H; unfold rethrown_by_send;
      destruct (instanceof_WalletError e); simpl; auto.
  - intros t c o e Hrs Hprep.
    unfold readyState in Hrs. simpl in Hrs.
    pose proof (signAndPrepareTransaction_throws t c o _ e Hprep) as Hi.
    pose proof (signAndPrepareTransaction_state t c o
                  (mkState h (mkAdapter cg (Some r) pk rs d) ev)) as Hst.
    destruct (signAndPrepareTransaction t c o _) as [res s0] eqn:Hsp.
    simpl in Hprep, Hst. subst res s0. split; [exact Hi|].
    destruct h, r, rs; try congruence; simpl in Hw; subst;
      js_unfold_top; rewrite Hsp; js_unfold_top; rewrite Hi; simpl; auto.
Qed.

End Properties.

(** ** The adapter on concrete pages

    Runs of the adapter against the test double [Fake.externals]: the
    instances of the theorems above, and the inputs on which the adapter
    departs from its specification. *)
Section Runs.
#[local] Existing Instance Fake.externals.




(** C2 fails: the payload does not authenticate, `connect()` throws the
    connection error, and the sharedSecret entry, absent before, now holds
    the newly derived secret. *)
Lemma sharedSecret_persisted_before_decryption :
  let s' := snd (connect Fake.forged_answer) in
  nacl_box_open_after (Fake.forged Fake.request_sk "addr" "tok1") Fake.wallet_nonce
    (Fake.wallet_pk ++ Fake.request_sk) = Normal None /\
  fst (connect Fake.forged_answer) = Throw unable_to_decrypt /\
  localStorage (host Fake.forged_answer) !! _deepLinkSharedSecretStorage = None /\
  localStorage (host s') !! _deepLinkSharedSecretStorage = Some "87,115,107,55" /\
  publicKey s' = None.
Proof. cbv zeta. split_and!; vm_compute; reflexivity. Qed.

(** The amended C2 on the forged answer. *)
Lemma decryption_failure_witness :
  let pk := String.string_of_list_byte Fake.wallet_pk in
  let nonce := String.string_of_list_byte Fake.wallet_nonce in
  let data := String.string_of_list_byte (Fake.forged Fake.request_sk "addr" "tok1") in
  let s' := snd (handleConnectionDeepLinkParams pk nonce data Fake.forged_answer) in
  truthy (localStorage (host Fake.forged_answer) !! _deepLinkSecretKeyStorage) = true /\
  nacl_box_open_after (Fake.forged Fake.request_sk "addr" "tok1") Fake.wallet_nonce
    (Fake.wallet_pk ++ Fake.request_sk) = Normal None /\
  fst (handleConnectionDeepLinkParams pk nonce data Fake.forged_answer) = Throw unable_to_decrypt /\
  localStorage (host s') !! _deepLinkSharedSecretStorage
  = Some (Uint8Array_toString (Fake.wallet_pk ++ Fake.request_sk)) /\
  publicKey s' = publicKey Fake.forged_answer.
Proof.
  intros pk nonce data s'.
  split; [vm_compute; reflexivity|]. split; [vm_compute; reflexivity|].
  destruct (decryption_failure Fake.forged_answer pk nonce data
              Fake.wallet_pk (Fake.wallet_pk ++ Fake.request_sk)
              (Fake.forged Fake.request_sk "addr" "tok1") Fake.wallet_nonce)
    as (H1 & _ & H3 & _ & H5 & _);
    try (vm_compute; reflexivity).
  split_and!; assumption.
Defined.

(** C3 fails on the deep-link path of `sendTransaction`, and only there: on
    a reloaded page whose storage holds an earlier session no identity is
    present and the signing methods throw WalletNotConnectedError, but
    sending a versioned transaction dispatches it (one navigation) and
    returns normally, without any error event. *)
Theorem sendTransaction_without_identity :
  let result := sendTransaction Fake.versioned_tx None Fake.no_options Fake.reloaded in
  publicKey Fake.reloaded = None /\
  readyState Fake.reloaded = Loadable /\
  fst (signTransaction Fake.versioned_tx Fake.reloaded)
  = Throw (new_error WalletNotConnectedError) /\
  fst (signMessage [x01] Fake.reloaded) = Throw (new_error WalletNotConnectedError) /\
  fst result = Normal "TransactionSignature" /\
  emitted (snd result) = emitted Fake.reloaded /\
  length (navigations (host (snd result))) = 1.
Proof. cbv zeta. split_and!; vm_compute; reflexivity. Qed.



(** C5 fails: the page comes back with errorCode and errorMessage, and
    `connect()` neither throws nor emits an error; it stores a new key pair
    and sends the browser to the wallet app again. *)
Lemma failure_parameters_start_new_request :
  let s' := snd (connect Fake.refused) in
  searchParams_get "errorCode" (searchParams (location (host Fake.refused))) = Some "4001" /\
  fst (connect Fake.refused) = Normal tt /\
  emitted s' = [readyStateChange Loadable] /\
  localStorage (host s') !! _deepLinkPublicKeyStorage = Some "112,107,55" /\
  navigations (host s')
  = ["https://phantom.app/ul/v1/connect?app_url=https://dapp.example/?ref=1&dapp_encryption_public_key=pk7&redirect_link=https://dapp.example/?ref=1&cluster=devnet"].
Proof. cbv zeta. split_and!; vm_compute; reflexivity. Qed.

(** The amended C5 on the refused request. *)
Lemma failure_parameters_ignored_witness :
  let s' := snd (connect Fake.refused) in
  searchParams_get "errorCode" (searchParams (location (host Fake.refused))) = Some "4001" /\
  searchParams_get "errorMessage" (searchParams (location (host Fake.refused)))
  = Some "User rejected the request." /\
  response_present (searchParams (location (host Fake.refused))) = false /\
  fst (connect Fake.refused) = Normal tt /\
  emitted s' = emitted Fake.refused /\
  s' = request_sent Fake.refused.
Proof.
  intros s'.
  destruct (failure_parameters_ignored Fake.refused "4001" "User rejected the request.")
    as (H1 & H2 & _ & H4 & _); try reflexivity.
  split_and!; first [assumption | reflexivity].
Defined.

(** C6 fails for the signing methods: the extension rejects with an error
    that already is a WalletError, and `signTransaction` throws a new
    WalletSignTransactionError around it instead of the error itself. *)
Lemma signTransaction_wraps_typed_error :
  let s := Fake.attached (Some Fake.rejected) in
  instanceof_WalletError Fake.rejected = true /\
  fst (signTransaction Fake.versioned_tx s)
  = Throw (WalletError WalletSignTransactionError "User rejected the request."
             (Some Fake.rejected)) /\
  fst (signTransaction Fake.versioned_tx s) <> Throw Fake.rejected.
Proof. cbv zeta. split_and!; vm_compute; first [reflexivity | discriminate]. Qed.

(** The amended C6 on an attached extension that rejects every call. *)
Lemma delegate_failures_witness :
  let s := Fake.attached (Some Fake.rejected) in
  _wallet (adapter s) = Some WindowSolana /\
  is_Some (wallet_at WindowSolana (host s)) /\
  fst (signTransaction Fake.versioned_tx s)
  = Throw (WalletError WalletSignTransactionError "User rejected the request."
             (Some Fake.rejected)) /\
  fst (sendTransaction Fake.versioned_tx None Fake.no_options s) = Throw Fake.rejected.
Proof.
  intros s.
  destruct (delegate_failures s WindowSolana _ eq_refl eq_refl) as (H1 & _ & _ & H4 & _).
  split_and!; [reflexivity | eexists; reflexivity | |].
  - apply (H1 Fake.versioned_tx Fake.rejected (Fake.extension (Some Fake.rejected)) eq_refl).
  - apply (H4 Fake.versioned_tx None Fake.no_options Fake.versioned_tx
              (mkSendOptions None None None None) Fake.rejected
              (Fake.extension (Some Fake.rejected)));
      [discriminate | reflexivity | reflexivity].
Defined.



(** C9 on a page into which the extension is injected. *)
Lemma readyState_always_Loadable_witness :
  let h := Fake.extension_page None [] in
  let s := run [call_connect; polling_tick; call_disconnect] (constructor h) in
  window_defined h = true /\
  document_defined h = true /\
  isPhantom_injected h = true /\
  readyState s = Loadable /\
  _wallet (adapter s) = None.
Proof.
  intros h s.
  destruct (readyState_always_Loadable h [call_connect; polling_tick; call_disconnect]
              eq_refl eq_refl) as (_ & H1 & _ & _ & _ & H5 & _).
  split_and!; [reflexivity | reflexivity | reflexivity | exact H1 | exact H5].
Defined.

(** C10 on empty storage and on storage that lacks only the session. *)
Lemma dispatch_storage_keys_witness :
  let empty := constructor (Fake.page [] ∅) in
  let no_session := constructor (Fake.page [] Fake.without_session) in
  fst (signAndPrepareTransaction Fake.versioned_tx None Fake.no_options empty)
  = Normal (Fake.versioned_tx, mkSendOptions None None None None) /\
  truthy (localStorage (host empty) !! _deepLinkPublicKeyStorage) = false /\
  fst (sendTransactionUsingDeepLink Fake.versioned_tx None Fake.no_options empty)
  = Throw (key_not_stored _deepLinkPublicKeyStorage) /\
  localStorage (host no_session) !! _deepLinkSessionStorage = None /\
  fst (sendTransactionUsingDeepLink Fake.versioned_tx None Fake.no_options no_session)
  = Normal "TransactionSignature".
Proof.
  intros empty no_session.
  destruct (dispatch_storage_keys empty Fake.versioned_tx None Fake.no_options
              Fake.versioned_tx (mkSendOptions None None None None) eq_refl)
    as (H1 & _ & _).
  destruct (dispatch_storage_keys no_session Fake.versioned_tx None Fake.no_options
              Fake.versioned_tx (mkSendOptions None None None None) eq_refl)
    as (_ & _ & H3).
  split_and!; [reflexivity | reflexivity | | reflexivity |].
  - rewrite (H1 eq_refl). reflexivity.
  - eapply H3; vm_compute; reflexivity.
Defined.

End Runs.

(** ** Further properties of the adapter

    The behaviour of the remaining code paths: the guards of `connect()`,
    the completion phase and the whole handshake, the storage encoding,
    the extension path, the extension's events, and what no operation
    does. *)
Section Coverage.
Context `{Ext : Externals}.



(** *** The storage encoding *)
Lemma byte_toString_comma b rest :
  split_comma (byte_toString b +:+ String ","%char rest) = byte_toString b :: split_comma rest.
Proof. destruct b; reflexivity. Qed.

Lemma byte_toString_alone b : split_comma (byte_toString b) = [byte_toString b].
Proof. destruct b; reflexivity. Qed.

Lemma byte_toString_nonempty b : String.eqb (byte_toString b) "" = false.
Proof. destruct b; reflexivity. Qed.

Lemma split_comma_Uint8Array_toString (a : bytes) :
  a <> [] -> split_comma (Uint8Array_toString a) = map byte_toString a.
Proof.
  unfold Uint8Array_toString.
  induction a as [|b a IH]; [congruence|]. intros _.
  destruct a as [|b' a].
  - simpl. apply byte_toString_alone.
  - change (String.concat "," (map byte_toString (b :: b' :: a)))
      with (byte_toString b +:+ String ","%char (String.concat "," (map byte_toString (b' :: a)))).
    rewrite byte_toString_comma. rewrite IH by congruence. reflexivity.
Qed.

Lemma Uint8Array_toString_truthy (a : bytes) :
  truthy (Some (Uint8Array_toString a)) = negb (bool_decide (a = [])).
Proof.
  destruct a as [|b a]; [reflexivity|]. simpl.
  unfold Uint8Array_toString. simpl.
  destruct (map byte_toString a) eqn:E.
  - rewrite byte_toString_nonempty. reflexivity.
  - pose proof (byte_toString_nonempty b) as H.
    destruct (byte_toString b) as [|c s0]; [discriminate|]. reflexivity.
Qed.


Lemma handle_completes (s : State) pk nonce data theirs shared box n plain cd k :
  truthy (localStorage (host s) !! _deepLinkSecretKeyStorage) = true ->
  bs58_decode pk = Normal theirs ->
  nacl_box_before theirs (stored_bytes _deepLinkSecretKeyStorage s) = Normal shared ->
  bs58_decode data = Normal box ->
  bs58_decode nonce = Normal n ->
  nacl_box_open_after box n shared = Normal (Some plain) ->
  JSON_parse_ConnectData plain = Normal cd ->
  PublicKey_new_string (public_key cd) = Normal k ->
  handleConnectionDeepLinkParams pk nonce data s = (Normal tt, handshake_completed s shared cd k).
Proof.
  intros Hsk Hpk Hbefore Hdata Hnonce Hopen Hparse Hkey.
  unfold handleConnectionDeepLinkParams.
  rewrite (bind_Normal _ _ _ _ _ (localStorageGetUint8_stored _ s Hsk)).
  rewrite (bind_Normal (lift _) _ _ theirs _) by (unfold lift; rewrite Hpk; reflexivity).
  rewrite (bind_Normal (lift _) _ _ shared _)
    by (unfold lift; rewrite Hbefore; reflexivity).
  rewrite (bind_Normal (localStorageSet _ _) _ _ _ _ eq_refl).
  rewrite (bind_Normal (lift _) _ _ box _) by (unfold lift; rewrite Hdata; reflexivity).
  rewrite (bind_Normal (lift _) _ _ n _) by (unfold lift; rewrite Hnonce; reflexivity).
  rewrite (bind_Normal (lift _) _ _ (Some plain) _)
    by (unfold lift; rewrite Hopen; reflexivity).
  rewrite (bind_Normal (lift _) _ _ cd _) by (unfold lift; rewrite Hparse; reflexivity).
  rewrite (bind_Normal (localStorage_setItem _ _) _ _ _ _ eq_refl).
  rewrite (bind_Normal (lift _) _ _ k _) by (unfold lift; rewrite Hkey; reflexivity).
  destruct s as [h a ev]. destruct h, a. reflexivity.
Qed.

(** the discrimination of connect() *)
Lemma connect_takes_completion (s : State) pk nonce data :
  readyState s = Loadable -> connected s = false -> connecting s = false ->
  window_defined (host s) = true ->
  searchParams_get "phantom_encryption_public_key" (searchParams (location (host s))) = Some pk ->
  searchParams_get "nonce" (searchParams (location (host s))) = Some nonce ->
  searchParams_get "data" (searchParams (location (host s))) = Some data ->
  pk <> "" -> nonce <> "" -> data <> "" ->
  connect s =
    try_finally
      (try_catch (handleConnectionDeepLinkParams pk nonce data)
                 (fun error => bind (emit (error_event error)) (fun _ => throw error)))
      (set_adapter (with_connecting false))
      (set_adapter (with_connecting true) s).
Proof.
  intros Hr Hc Hg Hw Hpk Hn Hd Npk Nn Nd.
  cbv beta iota zeta delta [connect try_finally try_catch bind gets ret not_window].
  rewrite Hc, Hg. cbn [orb]. rewrite Hw. cbn [orb]. rewrite Hr.
  cbn [WalletReadyState_eqb negb andb].
  cbv beta iota zeta delta [modify bind gets set_adapter]. cbn [host adapter].
  rewrite Hpk, Hn, Hd. unfold truthy.
  apply String.eqb_neq in Npk, Nn, Nd. rewrite Npk, Nn, Nd. reflexivity.
Qed.

Lemma connect_completes (s : State) pk nonce data theirs shared box n plain cd k :
  readyState s = Loadable -> connected s = false -> connecting s = false ->
  window_defined (host s) = true ->
  searchParams_get "phantom_encryption_public_key" (searchParams (location (host s))) = Some pk ->
  searchParams_get "nonce" (searchParams (location (host s))) = Some nonce ->
  searchParams_get "data" (searchParams (location (host s))) = Some data ->
  pk <> "" -> nonce <> "" -> data <> "" ->
  truthy (localStorage (host s) !! _deepLinkSecretKeyStorage) = true ->
  bs58_decode pk = Normal theirs ->
  nacl_box_before theirs (stored_bytes _deepLinkSecretKeyStorage s) = Normal shared ->
  bs58_decode data = Normal box ->
  bs58_decode nonce = Normal n ->
  nacl_box_open_after box n shared = Normal (Some plain) ->
  JSON_parse_ConnectData plain = Normal cd ->
  PublicKey_new_string (public_key cd) = Normal k ->
  connect s
  = (Normal tt,
     mkState (host (handshake_completed s shared cd k))
             (with_connecting false (adapter (handshake_completed s shared cd k)))
             (emitted (handshake_completed s shared cd k))).
Proof.
  intros Hr Hc Hg Hw Hpk Hn Hd Npk Nn Nd Hsk Hdec Hbefore Hdata Hnonce Hopen Hparse Hkey.
  rewrite (connect_takes_completion s pk nonce data) by assumption.
  unfold try_finally, try_catch.
  rewrite (handle_completes (set_adapter (with_connecting true) s) pk nonce data
             theirs shared box n plain cd k) by (destruct s; assumption).
  destruct s as [h a ev]. destruct h, a. reflexivity.
Qed.

(** X6: the completion phase of `connect()`.  With the three response
    parameters in the URL, a stored request secret key, and a payload that
    decodes, opens under the derived secret, parses and carries a valid
    public key, `connect()` returns normally with that key as identity,
    has stored the shared secret and the session token (the text
    "undefined" when the payload has no session field), has written no
    other storage entry, emits exactly one connect event, does not navigate
    and draws no randomness. *)
Theorem completion_phase (s : State) pk nonce data theirs shared box n plain cd k :
  readyState s = Loadable -> connected s = false -> connecting s = false ->
  window_defined (host s) = true ->
  searchParams_get "phantom_encryption_public_key" (searchParams (location (host s))) = Some pk ->
  searchParams_get "nonce" (searchParams (location (host s))) = Some nonce ->
  searchParams_get "data" (searchParams (location (host s))) = Some data ->
  pk <> "" -> nonce <> "" -> data <> "" ->
  truthy (localStorage (host s) !! _deepLinkSecretKeyStorage) = true ->
  bs58_decode pk = Normal theirs ->
  nacl_box_before theirs (stored_bytes _deepLinkSecretKeyStorage s) = Normal shared ->
  bs58_decode data = Normal box ->
  bs58_decode nonce = Normal n ->
  nacl_box_open_after box n shared = Normal (Some plain) ->
  JSON_parse_ConnectData plain = Normal cd ->
  PublicKey_new_string (public_key cd) = Normal k ->
  let s' := snd (connect s) in
  fst (connect s) = Normal tt /\
  publicKey s' = Some k /\
  connecting s' = false /\
  localStorage (host s') !! _deepLinkSharedSecretStorage = Some (Uint8Array_toString shared) /\
  localStorage (host s') !! _deepLinkSessionStorage = Some (default "undefined" (session cd)) /\
  (forall key, key <> _deepLinkSharedSecretStorage -> key <> _deepLinkSessionStorage ->
     localStorage (host s') !! key = localStorage (host s) !! key) /\
  emitted s' = emitted s ++ [connect_event k] /\
  navigations (host s') = navigations (host s) /\
  entropy (host s') = entropy (host s).
Proof.
  intros Hr Hc Hg Hw Hpk Hn Hd Npk Nn Nd Hsk Hdec Hbefore Hdata Hnonce Hopen Hparse Hkey.
  simpl.
  rewrite (connect_completes s pk nonce data theirs shared box n plain cd k) by assumption.
  destruct s as [h a ev]. destruct h, a. simpl.
  split_and!; try reflexivity.
  - rewrite lookup_insert_ne by discriminate. apply lookup_insert_eq.
  - apply lookup_insert_eq.
  - intros key H1 H2. rewrite !lookup_insert_ne by congruence. reflexivity.
Qed.

(** X7: a response arrives but no request secret key is stored (or the
    stored text is empty).  `connect()` throws "Key
    PHANTOM_DEEP_LINK_SECRET_KEY not stored"; the error event is emitted
    twice, once by `localStorageGetUint8` and once by the catch of
    `connect()`; storage, navigation, randomness and identity are untouched
    and `connecting` is false again. *)
Theorem completion_without_request (s : State) pk nonce data :
  readyState s = Loadable -> connected s = false -> connecting s = false ->
  window_defined (host s) = true ->
  searchParams_get "phantom_encryption_public_key" (searchParams (location (host s))) = Some pk ->
  searchParams_get "nonce" (searchParams (location (host s))) = Some nonce ->
  searchParams_get "data" (searchParams (location (host s))) = Some data ->
  pk <> "" -> nonce <> "" -> data <> "" ->
  truthy (localStorage (host s) !! _deepLinkSecretKeyStorage) = false ->
  let error := key_not_stored _deepLinkSecretKeyStorage in
  connect s
  = (Throw error,
     mkState (host s) (with_connecting false (adapter s))
       (emitted s ++ [error_event error; error_event error])).
Proof.
  intros Hr Hc Hg Hw Hpk Hn Hd Npk Nn Nd Hsk.
  simpl. rewrite (connect_takes_completion s pk nonce data) by assumption.
  unfold try_finally, try_catch, handleConnectionDeepLinkParams.
  rewrite (bind_Throw _ _ _ _ _
             (localStorageGetUint8_missing _ (set_adapter (with_connecting true) s) Hsk)).
  destruct s as [h a ev]. destruct h, a. simpl. rewrite <- List.app_assoc. reflexivity.
Qed.


Lemma stored_decoding (a : bytes) :
  (forall b, Number_Uint8 (byte_toString b) = b) -> a <> [] ->
  map Number_Uint8 (split_comma (Uint8Array_toString a)) = a.
Proof.
  intros HN Ha. rewrite split_comma_Uint8Array_toString by assumption.
  rewrite List.map_map. erewrite List.map_ext; [apply List.map_id | assumption].
Qed.

(** X1: a byte array written with `localStorageSet(key, array.toString())`
    is read back unchanged by `localStorageGetUint8(key)`, provided
    `Number` inverts the decimal rendering of a byte; the one exception is
    the empty array, whose stored text is the empty string and which reads
    back as "Key ... not stored" (emitted and thrown). *)
Theorem storage_round_trip key (a : bytes) (s : State) :
  (forall b, Number_Uint8 (byte_toString b) = b) ->
  let s' := snd (localStorageSet key (Uint8Array_toString a) s) in
  (a <> [] -> localStorageGetUint8 key s' = (Normal a, s')) /\
  (a = [] ->
   localStorageGetUint8 key s'
   = (Throw (key_not_stored key),
      mkState (host s') (adapter s') (emitted s' ++ [error_event (key_not_stored key)]))).
Proof.
  intros HN s'.
  assert (Hl : localStorage (host s') !! key = Some (Uint8Array_toString a)).
  { subst s'. destruct s as [h ad ev]. destruct h. simpl. apply lookup_insert_eq. }
  clearbody s'. split.
  - intros Ha. rewrite localStorageGetUint8_stored.
    + unfold stored_bytes. rewrite Hl. simpl.
      rewrite stored_decoding by assumption. reflexivity.
    + rewrite Hl, Uint8Array_toString_truthy. rewrite bool_decide_eq_false_2; auto.
  - intros ->. apply localStorageGetUint8_missing. rewrite Hl. reflexivity.
Qed.

(** X8: a whole handshake.  A request phase stores a key pair; when the
    page is loaded again with that storage and a response whose payload
    opens under the secret agreed between the wallet's key and the stored
    request secret key, `connect()` on the fresh adapter completes: the key
    read back from storage is the one generated before, the identity is the
    wallet's public key, session and shared secret are stored, and the only
    events of the new adapter are readyStateChange and connect. *)
Theorem handshake_round_trip (s : State) (h2 : Host)
    pk nonce data theirs shared box n plain cd k :
  (forall b, Number_Uint8 (byte_toString b) = b) ->
  readyState s = Loadable -> connected s = false -> connecting s = false ->
  window_defined (host s) = true ->
  response_present (searchParams (location (host s))) = false ->
  let kp := nacl_box_keyPair (entropy (host s)) in
  kp_secretKey kp <> [] ->
  window_defined h2 = true -> document_defined h2 = true ->
  localStorage h2 = localStorage (host (snd (connect s))) ->
  searchParams_get "phantom_encryption_public_key" (searchParams (location h2)) = Some pk ->
  searchParams_get "nonce" (searchParams (location h2)) = Some nonce ->
  searchParams_get "data" (searchParams (location h2)) = Some data ->
  pk <> "" -> nonce <> "" -> data <> "" ->
  bs58_decode pk = Normal theirs ->
  nacl_box_before theirs (kp_secretKey kp) = Normal shared ->
  bs58_decode data = Normal box ->
  bs58_decode nonce = Normal n ->
  nacl_box_open_after box n shared = Normal (Some plain) ->
  JSON_parse_ConnectData plain = Normal cd ->
  PublicKey_new_string (public_key cd) = Normal k ->
  let s2 := snd (connect (constructor h2)) in
  fst (connect (constructor h2)) = Normal tt /\
  stored_bytes _deepLinkSecretKeyStorage (constructor h2) = kp_secretKey kp /\
  publicKey s2 = Some k /\
  localStorage (host s2) !! _deepLinkSessionStorage = Some (default "undefined" (session cd)) /\
  localStorage (host s2) !! _deepLinkSharedSecretStorage = Some (Uint8Array_toString shared) /\
  emitted s2 = [readyStateChange Loadable; connect_event k].
Proof.
  intros HN Hr Hc Hg Hw Hp kp Hsk Hw2 Hd2 Hls Hpk Hn Hd Npk Nn Nd
         Hdec Hbefore Hdata Hnonce Hopen Hparse Hkey.
  rewrite (connect_sends_request s Hr Hc Hg Hw Hp) in Hls. simpl in Hls. fold kp in Hls.
  assert (Hc2 : constructor h2
                = mkState h2 (mkAdapter false None None Loadable false)
                          [readyStateChange Loadable]).
  { unfold constructor, initial_readyState. rewrite Hw2, Hd2. reflexivity. }
  assert (Hlook : localStorage h2 !! _deepLinkSecretKeyStorage
                  = Some (Uint8Array_toString (kp_secretKey kp))).
  { rewrite Hls. apply lookup_insert_eq. }
  assert (Hstored : stored_bytes _deepLinkSecretKeyStorage (constructor h2) = kp_secretKey kp).
  { unfold stored_bytes. rewrite Hc2. simpl. rewrite Hlook. simpl.
    apply stored_decoding; assumption. }
  simpl.
  rewrite (connect_completes (constructor h2) pk nonce data theirs shared box n plain cd k);
    try assumption; try (rewrite Hc2; simpl; first [reflexivity | assumption]).
  - rewrite Hc2. simpl. split_and!; try reflexivity.
    + rewrite <- Hc2. exact Hstored.
    + apply lookup_insert_eq.
    + rewrite lookup_insert_ne by discriminate. apply lookup_insert_eq.
  - rewrite Hc2. simpl. rewrite Hlook, Uint8Array_toString_truthy.
    rewrite bool_decide_eq_false_2; auto.
  - rewrite Hstored. assumption.
Qed.

(** *** connect: the guards *)

(** X2: `connect()` on an adapter that is connected or already connecting
    returns normally without emitting, storing, navigating or calling the
    extension; its one effect is that `_connecting` is false afterwards (the
    `finally` block runs after the early return too). *)
Theorem connect_while_busy (s : State) :
  connected s = true \/ connecting s = true ->
  connect s = (Normal tt, set_adapter (with_connecting false) s).
Proof.
  intros H.
  cbv beta iota zeta delta [connect try_finally try_catch bind gets ret].
  destruct H as [H|H]; rewrite H.
  - reflexivity.
  - destruct (connected s); reflexivity.
Qed.

(** X3: with `window` present and the ready state neither Installed nor
    Loadable, `connect()` emits and throws WalletNotReadyError and changes
    nothing else. *)
Theorem connect_not_ready (s : State) :
  window_defined (host s) = true -> connected s = false -> connecting s = false ->
  readyState s <> Installed -> readyState s <> Loadable ->
  let error := new_error WalletNotReadyError in
  connect s
  = (Throw error,
     mkState (host s) (with_connecting false (adapter s)) (emitted s ++ [error_event error])).
Proof.
  intros Hw Hc Hg Hi Hl.
  cbv beta iota zeta delta [connect try_finally try_catch bind gets ret not_window].
  rewrite Hc, Hg. cbn [orb]. rewrite Hw. cbn [orb].
  destruct (readyState s); try congruence; reflexivity.
Qed.

(** *** Failures are emitted, then thrown *)
Lemma funnel {A} (m : Js A) (s : State) e :
  fst (try_catch m (fun error => bind (emit (error_event error)) (fun _ => throw error)) s)
  = Throw e ->
  last (emitted
          (snd (try_catch m
                  (fun error => bind (emit (error_event error)) (fun _ => throw error)) s)))
  = Some (error_event e).
Proof.
  unfold try_catch. destruct (m s) as [[a|e'] s1]; simpl; [discriminate|].
  intros [= ->]. apply last_snoc.
Qed.

Lemma connect_reports (s : State) e :
  fst (connect s) = Throw e ->
  last (emitted (snd (connect s))) = Some (error_event e) /\
  connecting (snd (connect s)) = false.
Proof.
  unfold connect, try_finally.
  match goal with |- context [try_catch ?m ?h s] =>
    pose proof (funnel m s e) as F; destruct (try_catch m h s) as [r s1] end.
  simpl in *. intros H. split; [apply F, H|]. destruct s1 as [h1 [] ev1]. reflexivity.
Qed.

(** X4: whenever `connect()`, `signTransaction`, `signAllTransactions`,
    `signMessage`, or `sendTransaction` outside the Loadable state throws an
    error, the last event emitted is the error event carrying that same
    error; after a throwing `connect()` the `connecting` flag is false. *)
Theorem errors_are_emitted (s : State) e :
  (fst (connect s) = Throw e ->
     last (emitted (snd (connect s))) = Some (error_event e) /\
     connecting (snd (connect s)) = false) /\
  (forall t, fst (signTransaction t s) = Throw e ->
     last (emitted (snd (signTransaction t s))) = Some (error_event e)) /\
  (forall ts, fst (signAllTransactions ts s) = Throw e ->
     last (emitted (snd (signAllTransactions ts s))) = Some (error_event e)) /\
  (forall m, fst (signMessage m s) = Throw e ->
     last (emitted (snd (signMessage m s))) = Some (error_event e)) /\
  (forall t c o, readyState s <> Loadable ->
     fst (sendTransaction t c o s) = Throw e ->
     last (emitted (snd (sendTransaction t c o s))) = Some (error_event e)).
Proof.
  split_and!.
  - apply connect_reports.
  - intros t. apply funnel.
  - intros ts. apply funnel.
  - intros m. apply funnel.
  - intros t c o Hl. unfold sendTransaction.
    rewrite (bind_Normal (gets readyState) _ s (readyState s) s eq_refl).
    destruct (WalletReadyState_eqb (readyState s) Loadable) eqn:E.
    + apply WalletReadyState_eqb_eq in E. contradiction.
    + apply funnel.
Qed.

(** *** Sending over the deep link *)

(** X10: in the Loadable state `sendTransaction` hands back the promise of
    the deep-link dispatch, so its own catch never runs: a failure of the
    preparation step is thrown with the state entirely unchanged (no error
    event), and a failure of `serialize` is thrown as it is, unwrapped,
    without an error event, without navigation and without a storage
    write. *)
Theorem deep_link_send_failures (s : State) t c o e :
  readyState s = Loadable ->
  (fst (signAndPrepareTransaction t c o s) = Throw e ->
     sendTransaction t c o s = (Throw e, s)) /\
  (forall t' so,
     fst (signAndPrepareTransaction t c o s) = Normal (t', so) ->
     truthy (localStorage (host s) !! _deepLinkPublicKeyStorage) = true ->
     truthy (localStorage (host s) !! _deepLinkSharedSecretStorage) = true ->
     tx_serialize t' = Throw e ->
     let s' := snd (sendTransaction t c o s) in
     fst (sendTransaction t c o s) = Throw e /\
     emitted s' = emitted s /\
     navigations (host s') = navigations (host s) /\
     localStorage (host s') = localStorage (host s)).
Proof.
  intros Hr. rewrite (sendTransaction_Loadable t c o s Hr).
  pose proof (signAndPrepareTransaction_state t c o s) as Hst.
  destruct (signAndPrepareTransaction t c o s) as [r s0] eqn:Hsp. simpl in Hst. subst s0.
  split.
  - simpl. intros ->. unfold sendTransactionUsingDeepLink.
    rewrite (bind_Throw _ _ _ _ _ Hsp). reflexivity.
  - simpl. intros t' so -> Hpk Hss Hser. unfold sendTransactionUsingDeepLink.
    rewrite (bind_Normal _ _ _ _ _ Hsp).
    rewrite (bind_Normal _ _ _ _ _ (localStorageGetUint8_stored _ s Hpk)).
    rewrite (bind_Normal _ _ _ _ _ (localStorageGetUint8_stored _ s Hss)).
    rewrite (bind_Normal (localStorage_getItem _) _ s _ s eq_refl).
    rewrite (bind_Normal (nacl_random 24) _ s _ _ eq_refl).
    rewrite (bind_Throw (lift _) _ _ e _)
      by (unfold lift; simpl; rewrite Hser; reflexivity).
    destruct s as [h a ev]. destruct h. split_and!; reflexivity.
Qed.




(** *** The extension's events *)

(** X16: the handler of the extension's disconnect event.  Without an
    attached object it does nothing.  With one, it removes both adapter
    handlers from the object without calling any of its methods, clears
    `_wallet` and `_publicKey`, and emits a WalletDisconnectedError error
    event followed by the disconnect event; afterwards `connected` is false
    and a second event does nothing. *)
Theorem extension_disconnected (s : State) :
  (_wallet (adapter s) = None -> _disconnected s = (Normal tt, s)) /\
  (forall r w, _wallet (adapter s) = Some r -> wallet_at r (host s) = Some w ->
     let s1 := snd (_disconnected s) in
     _disconnected s
     = (Normal tt,
        mkState (with_wallet_at r (detached w) (host s))
                (with_publicKey None (with_wallet None (adapter s)))
                (emitted s ++ [error_event (new_error WalletDisconnectedError);
                               disconnect_event])) /\
     connected s1 = false /\
     _disconnected s1 = (Normal tt, s1)).
Proof.
  destruct s as [h [cg w0 pk rs d] ev]. simpl. split.
  - intros ->. reflexivity.
  - intros r w -> Hw.
    destruct h, r; simpl in Hw; subst; js_unfold; unfold detached; simpl;
      rewrite <- ?List.app_assoc; split_and!; reflexivity.
Qed.

(** X17: after `disconnect()` on an adapter with an attached extension
    object, a later disconnect or accountChanged event of any injected
    object leaves the adapter exactly as it is, and `connected` is false. *)
Theorem events_after_disconnect (s : State) r r' k :
  _wallet (adapter s) = Some r ->
  let s1 := snd (disconnect s) in
  step (wallet_disconnect r') s1 = s1 /\
  step (wallet_accountChanged r' k) s1 = s1 /\
  connected s1 = false.
Proof.
  intros Hr.
  assert (H : _wallet (adapter (snd (disconnect s))) = None /\
              _publicKey (adapter (snd (disconnect s))) = None).
  { destruct (wallet_at r (host s)) as [w|] eqn:Hw.
    - rewrite (disconnect_with_wallet s r w Hr Hw). split; reflexivity.
    - rewrite (disconnect_dangling s r Hr Hw). split; reflexivity. }
  destruct H as [H1 H2]. simpl.
  destruct (snd (disconnect s)) as [h1 [cg1 w1 pk1 rs1 d1] ev1]. simpl in H1, H2. subst.
  unfold step, connected, _disconnected, _accountChanged, bind, gets, publicKey. simpl.
  split_and!; try reflexivity.
  - destruct (subscribed r' ev_disconnect _); reflexivity.
  - destruct (subscribed r' ev_accountChanged _); reflexivity.
Qed.

(** X18: the handler of the extension's accountChanged event never throws.
    Without an identity it does nothing.  With one: a key whose bytes cannot
    be read or rebuilt only emits a WalletPublicKeyError wrapping the
    failure; a key equal to the current one changes nothing; any other key
    becomes the identity and is announced by a connect event. *)
Theorem account_changed (s : State) (newKey : PublicKey) :
  fst (_accountChanged newKey s) = Normal tt /\
  (publicKey s = None -> _accountChanged newKey s = (Normal tt, s)) /\
  (forall old, publicKey s = Some old ->
     (forall e, PublicKey_toBytes newKey = Throw e ->
        snd (_accountChanged newKey s)
        = mkState (host s) (adapter s)
            (emitted s ++ [error_event (wrap_error WalletPublicKeyError e)])) /\
     (forall b e, PublicKey_toBytes newKey = Normal b -> PublicKey_new_bytes b = Throw e ->
        snd (_accountChanged newKey s)
        = mkState (host s) (adapter s)
            (emitted s ++ [error_event (wrap_error WalletPublicKeyError e)])) /\
     (forall b k, PublicKey_toBytes newKey = Normal b -> PublicKey_new_bytes b = Normal k ->
        snd (_accountChanged newKey s)
        = if PublicKey_equals old k then s
          else mkState (host s) (with_publicKey (Some k) (adapter s))
                       (emitted s ++ [connect_event k]))).
Proof.
  destruct s as [h [cg w0 pk rs d] ev]. unfold publicKey. simpl.
  split_and!.
  - js_unfold. js_cases; reflexivity.
  - intros ->. reflexivity.
  - intros old ->. split_and!.
    + intros e H. js_unfold. rewrite H. reflexivity.
    + intros b e H1 H2. js_unfold. rewrite H1, H2. reflexivity.
    + intros b k H1 H2. js_unfold. rewrite H1, H2.
      destruct (PublicKey_equals old k); reflexivity.
Qed.

(** *** A failed connect *)
Lemma handle_throws_adapter a b c (s : State) e :
  fst (handleConnectionDeepLinkParams a b c s) = Throw e ->
  adapter (snd (handleConnectionDeepLinkParams a b c s)) = adapter s.
Proof.
  destruct s as [h ad ev]. destruct h.
  js_unfold. js_cases; simpl; try discriminate; reflexivity.
Qed.

Lemma connect_direct_throws_adapter (s : State) e :
  fst (connect_direct s) = Throw e ->
  adapter (snd (connect_direct s)) = adapter s.
Proof.
  destruct s as [h ad ev]. destruct h.
  js_unfold. js_cases; simpl; try discriminate; reflexivity.
Qed.

(** X5: a `connect()` that throws, on either path, leaves `_wallet`,
    the identity and the ready state as they were, and ends with the error
    event of the thrown error and `connecting` false. *)
Theorem failed_connect_keeps_identity (s : State) e :
  fst (connect s) = Throw e ->
  let s' := snd (connect s) in
  _wallet (adapter s') = _wallet (adapter s) /\
  publicKey s' = publicKey s /\
  readyState s' = readyState s /\
  connecting s' = false /\
  last (emitted s') = Some (error_event e).
Proof.
  intros H. simpl.
  destruct (connect_reports s e H) as (Hlast & Hcg).
  split_and!; try assumption; revert H; clear.
  all: destruct s as [h [cg w pk rs d] ev]; destruct h; js_unfold_top;
    repeat first
      [ match goal with
        | |- context [handleConnectionDeepLinkParams ?a ?b ?c ?s] =>
            generalize (handle_throws_adapter a b c s);
            destruct (handleConnectionDeepLinkParams a b c s) as [[[]|?] [[] [] ?]]
        | |- context [connectUsingDeepLink ?s] =>
            generalize (connectUsingDeepLink_wiring s);
            destruct (connectUsingDeepLink s) as [[[]|?] [[] [] ?]]
        | |- context [connect_direct ?s] =>
            generalize (connect_direct_throws_adapter s);
            destruct (connect_direct s) as [[[]|?] [[] [] ?]]
        end
      | js_case ];
    simpl; try discriminate; intros Ha; intros;
    try (specialize (Ha _ eq_refl); injection Ha; intros; subst); reflexivity.
Qed.


(** *** connect over the extension *)
Lemma connect_takes_extension (s : State) :
  readyState s = Installed -> connected s = false -> connecting s = false ->
  window_defined (host s) = true ->
  connect s =
    try_finally
      (try_catch connect_direct
                 (fun error => bind (emit (error_event error)) (fun _ => throw error)))
      (set_adapter (with_connecting false))
      (set_adapter (with_connecting true) s).
Proof.
  intros Hr Hc Hg Hw.
  cbv beta iota zeta delta [connect try_finally try_catch bind gets ret not_window].
  rewrite Hc, Hg. cbn [orb]. rewrite Hw. cbn [orb]. rewrite Hr. reflexivity.
Qed.

(** X14: `connect()` over an injected extension (ready state Installed).
    For the object the code picks (`window.phantom.solana` if present, else
    `window.solana`): its own connect is called only if it does not report
    isConnected; when
    that succeeds and its public key rebuilds, the adapter subscribes its
    disconnect and accountChanged handlers (appended to those already
    there), attaches the object, adopts the key and emits one connect
    event. *)
Theorem extension_attaches (s : State) r w b k :
  readyState s = Installed -> connected s = false -> connecting s = false ->
  window_defined (host s) = true ->
  injected_wallet (host s) = Some r -> wallet_at r (host s) = Some w ->
  let p := if provider_isConnected (provider w) then provider w
           else snd (provider_connect (provider w)) in
  (provider_isConnected (provider w) = false ->
   fst (provider_connect (provider w)) = Normal tt) ->
  provider_publicKey p = Some (Normal b) ->
  PublicKey_new_bytes b = Normal k ->
  connect s
  = (Normal tt,
     mkState
       (with_wallet_at r
          (mkPhantomWallet p (handlers w ++ [ev_disconnect; ev_accountChanged])) (host s))
       (with_connecting false (with_publicKey (Some k) (with_wallet (Some r) (adapter s))))
       (emitted s ++ [connect_event k])).
Proof.
  intros Hr Hc Hg Hw Hi Hat p Hcon Hkey Hnew.
  rewrite (connect_takes_extension s Hr Hc Hg Hw).
  destruct s as [h a ev]. destruct h, a. simpl in Hi, Hat, Hw.
  subst p. unfold try_finally, try_catch, connect_direct, set_adapter.
  cbn [host adapter emitted].
  rewrite (bind_Normal (gets _) _ _ (Some r) _)
    by (unfold gets; cbn [host]; rewrite Hi; reflexivity).
  destruct r; simpl in Hat; subst;
    js_unfold; destruct (provider_isConnected (provider w)) eqn:E; simpl in *.
  all: try (specialize (Hcon eq_refl);
            destruct (provider_connect (provider w)) as [[[]|?] p'];
            simpl in *; try discriminate).
  all: rewrite Hkey, Hnew; simpl; rewrite <- ?List.app_assoc; reflexivity.
Qed.

(** X15: the three ways `connect()` over the extension fails.  A throwing
    extension connect gives a WalletConnectionError with the cause's message
    and the cause; a missing public key gives WalletAccountError; a key that
    does not rebuild gives a WalletPublicKeyError with message and cause.
    Each is emitted, then thrown, and no handler is subscribed. *)
Theorem extension_connect_failures (s : State) r w :
  readyState s = Installed -> connected s = false -> connecting s = false ->
  window_defined (host s) = true ->
  injected_wallet (host s) = Some r -> wallet_at r (host s) = Some w ->
  let s' := snd (connect s) in
  (forall e, provider_isConnected (provider w) = false ->
     fst (provider_connect (provider w)) = Throw e ->
     let thrown := WalletError WalletConnectionError (default "" (error_message e)) (Some e) in
     fst (connect s) = Throw thrown /\
     emitted s' = emitted s ++ [error_event thrown] /\
     wallet_at r (host s')
     = Some (mkPhantomWallet (snd (provider_connect (provider w))) (handlers w))) /\
  (provider_isConnected (provider w) = true ->
   provider_publicKey (provider w) = None ->
     fst (connect s) = Throw (new_error WalletAccountError) /\
     emitted s' = emitted s ++ [error_event (new_error WalletAccountError)] /\
     host s' = host s) /\
  (forall b e, provider_isConnected (provider w) = true ->
     provider_publicKey (provider w) = Some (Normal b) ->
     PublicKey_new_bytes b = Throw e ->
     let thrown := WalletError WalletPublicKeyError (default "" (error_message e)) (Some e) in
     fst (connect s) = Throw thrown /\
     emitted s' = emitted s ++ [error_event thrown] /\
     host s' = host s).
Proof.
  intros Hr Hc Hg Hw Hi Hat. simpl.
  rewrite (connect_takes_extension s Hr Hc Hg Hw).
  destruct s as [h a ev]. destruct h, a. simpl in Hi, Hat, Hw.
  unfold try_finally, try_catch, connect_direct, set_adapter.
  cbn [host adapter emitted].
  rewrite (bind_Normal (gets _) _ _ (Some r) _)
    by (unfold gets; cbn [host]; rewrite Hi; reflexivity).
  split_and!.
  - intros e E He. destruct r; simpl in Hat; subst; js_unfold; rewrite E; simpl;
      destruct (provider_connect (provider w)) as [[[]|?] p']; simpl in *;
      try discriminate; injection He as <-; split_and!; reflexivity.
  - intros E Hk. destruct r; simpl in Hat; subst; js_unfold; rewrite E; simpl;
      rewrite Hk; simpl; split_and!; reflexivity.
  - intros b e E Hk Hn. destruct r; simpl in Hat; subst; js_unfold; rewrite E; simpl;
      rewrite Hk, Hn; simpl; split_and!; reflexivity.
Qed.

(** *** Successful delegation *)

(** X13: with an extension object attached, `signTransaction` and
    `signAllTransactions` return what the extension returns, or their own
    argument when the extension returns nothing; `signMessage` returns the
    extension's signature; `sendTransaction` outside the Loadable state
    returns the extension's signature for the prepared transaction, called
    with the caller's preflightCommitment or, when that is absent or empty,
    the connection's commitment.  None emits an event or changes anything
    but the extension's own state. *)
Theorem delegate_successes (s : State) r w :
  _wallet (adapter s) = Some r -> wallet_at r (host s) = Some w ->
  let updated p := mkState (with_wallet_at r (mkPhantomWallet p (handlers w)) (host s))
                           (adapter s) (emitted s) in
  (forall t res p, provider_signTransaction (provider w) t = (Normal res, p) ->
     signTransaction t s = (Normal (default t res), updated p)) /\
  (forall ts res p, provider_signAllTransactions (provider w) ts = (Normal res, p) ->
     signAllTransactions ts s = (Normal (default ts res), updated p)) /\
  (forall m sig p, provider_signMessage (provider w) m = (Normal sig, p) ->
     signMessage m s = (Normal sig, updated p)) /\
  (forall t c o t' so sig p,
     readyState s <> Loadable ->
     fst (signAndPrepareTransaction t c o s) = Normal (t', so) ->
     provider_signAndSendTransaction (provider w) t'
       (set_preflightCommitment
          (js_or (preflightCommitment so) (connection_commitment c)) so) = (Normal sig, p) ->
     sendTransaction t c o s = (Normal sig, updated p)).
Proof.
  intros Hr Hw.
  destruct s as [h [cg w0 pk rs d] ev]. simpl in Hr. subst w0.
  split_and!.
  - intros t res p H. destruct h, r; simpl in Hw; subst; js_unfold; rewrite H; reflexivity.
  - intros t res p H. destruct h, r; simpl in Hw; subst; js_unfold; rewrite H; reflexivity.
  - intros t res p H. destruct h, r; simpl in Hw; subst; js_unfold; rewrite H; reflexivity.
  - intros t c o t' so sig p Hrs Hprep H.
    unfold readyState in Hrs. simpl in Hrs.
    pose proof (signAndPrepareTransaction_state t c o
                  (mkState h (mkAdapter cg (Some r) pk rs d) ev)) as Hst.
    destruct (signAndPrepareTransaction t c o _) as [res s0] eqn:Hsp.
    simpl in Hprep, Hst. subst res s0.
    destruct h, r, rs; try congruence; simpl in Hw; subst;
      js_unfold_top; rewrite Hsp; js_unfold_top; rewrite H; reflexivity.
Qed.

(** *** Preparing a transaction *)

(** X12: `signAndPrepareTransaction` never changes the state; whatever it
    throws is a WalletError (a foreign failure is wrapped into a
    WalletSendTransactionError); the send options it returns are the
    caller's options without `signers`.  For a versioned transaction the
    outcome does not depend on the adapter at all, and without signers the
    transaction comes back as it is; for a legacy transaction a failure of
    `prepareTransaction` is what is rethrown. *)
Theorem prepare_contract (s : State) t c o :
  snd (signAndPrepareTransaction t c o s) = s /\
  (forall e, fst (signAndPrepareTransaction t c o s) = Throw e ->
     instanceof_WalletError e = true) /\
  (forall t' so, fst (signAndPrepareTransaction t c o s) = Normal (t', so) ->
     so = sendOptions o) /\
  (isVersionedTransaction t = true ->
     forall s2 : State,
       fst (signAndPrepareTransaction t c o s2) = fst (signAndPrepareTransaction t c o s)) /\
  (isVersionedTransaction t = true -> signers o = None \/ signers o = Some [] ->
     fst (signAndPrepareTransaction t c o s) = Normal (t, sendOptions o)) /\
  (isVersionedTransaction t = false ->
     forall e, prepareTransaction (publicKey s) t c (sendOptions o) = Throw e ->
       fst (signAndPrepareTransaction t c o s) = Throw (rethrown_by_send e)).
Proof.
  split_and!.
  - apply signAndPrepareTransaction_state.
  - intros e. apply signAndPrepareTransaction_throws.
  - destruct s as [h a ev]. js_unfold. js_cases; simpl; intros t' so [= <- <-]; reflexivity.
  - intros Hv s2. destruct s as [h a ev], s2 as [h2 a2 ev2]. js_unfold. rewrite Hv.
    js_cases; reflexivity.
  - intros Hv Hs. destruct s as [h a ev]. js_unfold. rewrite Hv.
    destruct Hs as [-> | ->]; reflexivity.
  - intros Hv e He. destruct s as [h [cg w pk rs d] ev]. unfold publicKey in He. simpl in He.
    js_unfold. rewrite Hv, He. unfold rethrown_by_send, wrap_error.
    destruct (instanceof_WalletError e); reflexivity.
Qed.


(** *** What the adapter touches *)
Ltac own_keys :=
  unfold page_kept, host_quiet; simpl; split_and!; try reflexivity;
  try (intros key Hk; unfold storage_keys in Hk; rewrite !not_elem_of_cons in Hk;
       destruct_and?; rewrite ?lookup_insert_ne by congruence; reflexivity).

Lemma handle_page a b c (s : State) :
  page_kept s (snd (handleConnectionDeepLinkParams a b c s)).
Proof.
  destruct s as [h ad ev]. destruct h. js_unfold. js_cases; own_keys.
Qed.

Lemma connectUsingDeepLink_page (s : State) : page_kept s (snd (connectUsingDeepLink s)).
Proof. destruct s as [h ad ev]. destruct h. js_unfold. own_keys. Qed.

Lemma connect_direct_page (s : State) :
  page_kept s (snd (connect_direct s)) /\ host_quiet s (snd (connect_direct s)).
Proof.
  destruct s as [h ad ev]. destruct h. js_unfold. js_cases; own_keys.
Qed.

Lemma sendTransactionUsingDeepLink_page t c o (s : State) :
  page_kept s (snd (sendTransactionUsingDeepLink t c o s)) /\
  localStorage (host (snd (sendTransactionUsingDeepLink t c o s))) = localStorage (host s) /\
  alerts (host (snd (sendTransactionUsingDeepLink t c o s))) = alerts (host s).
Proof.
  unfold sendTransactionUsingDeepLink.
  pose proof (signAndPrepareTransaction_state t c o s) as Hst.
  destruct (signAndPrepareTransaction t c o s) as [[[t' so]|e] s0] eqn:Hsp;
    simpl in Hst; subst s0.
  - rewrite (bind_Normal _ _ _ _ _ Hsp). clear Hsp.
    destruct s as [h ad ev]. destruct h. js_unfold. js_cases; own_keys.
  - rewrite (bind_Throw _ _ _ _ _ Hsp). own_keys.
Qed.

Ltac page_block :=
  match goal with
  | |- context [handleConnectionDeepLinkParams ?a ?b ?c ?s] =>
      generalize (handle_page a b c s);
      destruct (handleConnectionDeepLinkParams a b c s) as [[[]|?] [[] [] ?]]
  | |- context [connectUsingDeepLink ?s] =>
      generalize (connectUsingDeepLink_page s);
      destruct (connectUsingDeepLink s) as [[[]|?] [[] [] ?]]
  | |- context [sendTransactionUsingDeepLink ?a ?b ?c ?s] =>
      generalize (sendTransactionUsingDeepLink_page a b c s);
      destruct (sendTransactionUsingDeepLink a b c s) as [? [[] [] ?]]
  | |- context [connect_direct ?s] =>
      generalize (connect_direct_page s);
      destruct (connect_direct s) as [[[]|?] [[] [] ?]]
  | |- context [signAndPrepareTransaction ?a ?b ?c ?s] =>
      generalize (signAndPrepareTransaction_state a b c s);
      destruct (signAndPrepareTransaction a b c s) as [[[? ?]|?] ?];
      cbn [snd]; intros ->
  end.

(** X19: no operation changes the current location or the environment
    flags, and none writes a storage entry other than the adapter's four
    own keys.  Only `connect()` raises alerts, and only `connect()` and
    `sendTransaction` navigate or draw randomness: every other method call,
    extension event and polling tick leaves storage, navigations, alerts and
    the random source as they were, and `sendTransaction` writes no storage
    at all. *)
Theorem footprint (c : Call) (s : State) :
  page_kept s (step c s) /\
  match c with
  | call_connect => True
  | call_sendTransaction _ _ _ =>
      localStorage (host (step c s)) = localStorage (host s) /\
      alerts (host (step c s)) = alerts (host s)
  | _ => host_quiet s (step c s)
  end.
Proof.
  destruct s as [h [cg w pk rs d] ev]. destruct h.
  destruct c; js_unfold_top; repeat first [page_block | js_case];
    unfold page_kept, host_quiet; simpl; intros; destruct_and?; subst;
    split_and!; auto.
Qed.

(** *** An adapter without a host *)
Lemma step_unsupported h0 c (s : State) : unsupported h0 s -> unsupported h0 (step c s).
Proof.
  destruct s as [h ad ev]. unfold unsupported. simpl. intros [-> ->].
  destruct h0. destruct c; js_unfold_top; repeat js_case; simpl; auto.
Qed.

Lemma run_unsupported h0 calls (s : State) : unsupported h0 s -> unsupported h0 (run calls s).
Proof.
  revert s. induction calls as [|c calls IH]; intros s Hs; simpl.
  - assumption.
  - apply IH, step_unsupported, Hs.
Qed.

(** X20: constructed where `window` or `document` is missing, the adapter
    is Unsupported and emits nothing; whatever is called afterwards it never
    touches the host (storage, navigation, randomness), never has an
    identity, is never connected or connecting; `sendTransaction` always
    throws WalletNotConnectedError and, where `window` exists, `connect()`
    always throws WalletNotReadyError. *)
Theorem unsupported_forever (h : Host) (calls : list Call) :
  window_defined h = false \/ document_defined h = false ->
  emitted (constructor h) = [] /\
  let s := run calls (constructor h) in
  host s = h /\
  readyState s = Unsupported /\
  publicKey s = None /\
  connected s = false /\
  connecting s = false /\
  (window_defined h = true -> fst (connect s) = Throw (new_error WalletNotReadyError)) /\
  (forall t c o, fst (sendTransaction t c o s) = Throw (new_error WalletNotConnectedError)).
Proof.
  intros H.
  assert (Hc : constructor h = mkState h (mkAdapter false None None Unsupported false) []).
  { unfold constructor, initial_readyState.
    destruct H as [-> | ->]; [|rewrite orb_true_r]; reflexivity. }
  split; [rewrite Hc; reflexivity|].
  assert (Hu : unsupported h (run calls (constructor h))).
  { apply run_unsupported. rewrite Hc. split; reflexivity. }
  simpl. destruct (run calls (constructor h)) as [h1 a1 ev1].
  destruct Hu as [Hh Ha]. simpl in Hh, Ha. subst.
  split_and!; try reflexivity.
  intros Hw. destruct h. simpl in Hw. subst. reflexivity.
Qed.

(** *** Deep-link mode *)
Ltac wiring_block :=
  match goal with
  | |- context [handleConnectionDeepLinkParams ?a ?b ?c ?s] =>
      generalize (handleConnectionDeepLinkParams_wiring a b c s);
      destruct (handleConnectionDeepLinkParams a b c s) as [[[]|?] [[] [] ?]]
  | |- context [connectUsingDeepLink ?s] =>
      generalize (connectUsingDeepLink_wiring s);
      destruct (connectUsingDeepLink s) as [[[]|?] [[] [] ?]]
  | |- context [sendTransactionUsingDeepLink ?a ?b ?c ?s] =>
      generalize (sendTransactionUsingDeepLink_wiring a b c s);
      destruct (sendTransactionUsingDeepLink a b c s) as [? [[] [] ?]]
  end.

Lemma step_keeps_identity h0 c (s : State) :
  deep_link_only h0 s -> is_Some (publicKey s) -> is_Some (publicKey (step c s)).
Proof.
  destruct s as [h [cg w pk rs d] ev]. unfold deep_link_only, publicKey. simpl.
  intros (-> & -> & -> & H1 & H2) Hk. destruct h. simpl in *. subst.
  destruct c; js_unfold_top; repeat first [wiring_block | js_case];
    unfold same_wiring; simpl; intros; destruct_and?; subst; auto;
    try (eexists; reflexivity).
Qed.

Lemma run_keeps_identity h0 calls (s : State) :
  deep_link_only h0 s -> is_Some (publicKey s) -> is_Some (publicKey (run calls s)).
Proof.
  revert s. induction calls as [|c calls IH]; intros s Hs Hk; simpl.
  - assumption.
  - apply IH; [apply step_deep_link_only, Hs | apply (step_keeps_identity h0), Hk; exact Hs].
Qed.

(** X21: an adapter constructed with `window` and `document` is in
    deep-link mode for good: after any calls `connected` is false and
    `signTransaction`, `signAllTransactions` and `signMessage` throw
    WalletNotConnectedError, also after a successful handshake; and an
    identity, once adopted, is never removed again, neither by
    `disconnect()` nor by any other call or event. *)
Theorem deep_link_mode (h : Host) (calls more : list Call) :
  window_defined h = true -> document_defined h = true ->
  let s := run calls (constructor h) in
  let thrown := new_error WalletNotConnectedError in
  connected s = false /\
  (forall t, fst (signTransaction t s) = Throw thrown) /\
  (forall ts, fst (signAllTransactions ts s) = Throw thrown) /\
  (forall m, fst (signMessage m s) = Throw thrown) /\
  (is_Some (publicKey s) -> is_Some (publicKey (run more s))) /\
  (is_Some (publicKey s) -> is_Some (publicKey (snd (disconnect s)))).
Proof.
  intros Hw Hd. simpl.
  pose proof (run_deep_link_only h calls _ (constructor_deep_link_only h Hw Hd)) as Hdl.
  pose proof Hdl as (Hr & Hn & _).
  destruct (not_connected_without_wallet _ Hn) as (H1 & H2 & H3 & _).
  split_and!.
  - unfold connected. rewrite Hn. reflexivity.
  - intros t. rewrite H1. reflexivity.
  - intros ts. rewrite H2. reflexivity.
  - intros m. rewrite H3. reflexivity.
  - apply (run_keeps_identity h). exact Hdl.
  - intros Hk. apply (step_keeps_identity h call_disconnect _ Hdl Hk).
Qed.

End Coverage.

(** ** Further runs on concrete pages *)
Section CoverageRuns.
#[local] Existing Instance Fake.externals.

Lemma fake_Number b : Number_Uint8 (byte_toString b) = b.
Proof. destruct b; reflexivity. Qed.



Ltac run_it := first [reflexivity | discriminate | vm_compute; reflexivity].

(** X1 on the bytes of "sk7". *)
Lemma storage_round_trip_witness :
  let s' := snd (localStorageSet "k" (Uint8Array_toString Fake.request_sk) Fake.reloaded) in
  Fake.request_sk <> [] /\
  localStorageGetUint8 "k" s' = (Normal Fake.request_sk, s').
Proof.
  intros s'. split; [discriminate|].
  destruct (storage_round_trip "k" Fake.request_sk Fake.reloaded fake_Number) as [H _].
  apply H. discriminate.
Defined.

(** X2 on an adapter that is connecting. *)
Lemma connect_while_busy_witness :
  connecting Fake.busy = true /\
  connect Fake.busy = (Normal tt, set_adapter (with_connecting false) Fake.busy).
Proof. split; [reflexivity|]. apply connect_while_busy. right. reflexivity. Defined.

(** X3 on a host without `document`. *)
Lemma connect_not_ready_witness :
  readyState (constructor Fake.headless) = Unsupported /\
  fst (connect (constructor Fake.headless)) = Throw (new_error WalletNotReadyError).
Proof.
  split; [reflexivity|].
  rewrite (connect_not_ready (constructor Fake.headless)); run_it.
Defined.

(** X5 on the forged answer. *)
Lemma failed_connect_keeps_identity_witness :
  fst (connect Fake.forged_answer) = Throw unable_to_decrypt /\
  publicKey (snd (connect Fake.forged_answer)) = publicKey Fake.forged_answer /\
  last (emitted (snd (connect Fake.forged_answer))) = Some (error_event unable_to_decrypt).
Proof.
  assert (H : fst (connect Fake.forged_answer) = Throw unable_to_decrypt)
    by (vm_compute; reflexivity).
  destruct (failed_connect_keeps_identity Fake.forged_answer unable_to_decrypt H)
    as (_ & H2 & _ & _ & H5).
  split_and!; assumption.
Defined.

(** X6 on the valid answer. *)
Lemma completion_phase_witness :
  let s' := snd (connect Fake.answered) in
  fst (connect Fake.answered) = Normal tt /\
  publicKey s' = Some "addr" /\
  localStorage (host s') !! _deepLinkSessionStorage = Some "tok1" /\
  emitted s' = emitted Fake.answered ++ [connect_event "addr"].
Proof.
  intros s'.
  edestruct (completion_phase Fake.answered) as (H1 & H2 & _ & _ & H5 & _ & H7 & _);
    [run_it .. |].
  split_and!; [exact H1 | exact H2 | exact H5 | exact H7].
Defined.

(** X7 on an answer nobody asked for. *)
Lemma completion_without_request_witness :
  let error := key_not_stored _deepLinkSecretKeyStorage in
  truthy (localStorage (host Fake.unexpected_answer) !! _deepLinkSecretKeyStorage) = false /\
  fst (connect Fake.unexpected_answer) = Throw error /\
  emitted (snd (connect Fake.unexpected_answer))
  = emitted Fake.unexpected_answer ++ [error_event error; error_event error].
Proof.
  intros error. split; [reflexivity|].
  erewrite (completion_without_request Fake.unexpected_answer); [| run_it ..].
  split; reflexivity.
Defined.

(** X8: a request from an empty page, then the valid answer. *)
Lemma handshake_round_trip_witness :
  let s := constructor (Fake.page [] ∅) in
  let h2 := Fake.page (Fake.answer Fake.request_sk "addr" "tok1")
                      (localStorage (host (snd (connect s)))) in
  let s2 := snd (connect (constructor h2)) in
  kp_secretKey (nacl_box_keyPair (entropy (host s))) = Fake.request_sk /\
  fst (connect (constructor h2)) = Normal tt /\
  publicKey s2 = Some "addr" /\
  emitted s2 = [readyStateChange Loadable; connect_event "addr"].
Proof.
  intros s h2 s2. split; [reflexivity|].
  edestruct (handshake_round_trip s h2) as (H1 & _ & H3 & _ & _ & H6);
    [exact fake_Number | run_it .. |].
  split_and!; [exact H1 | exact H3 | exact H6].
Defined.

(** X10 on a reloaded page: a legacy transaction without identity. *)
Lemma deep_link_send_failures_witness :
  readyState Fake.reloaded = Loadable /\
  fst (signAndPrepareTransaction Fake.legacy_tx None Fake.no_options Fake.reloaded)
  = Throw (new_error WalletNotConnectedError) /\
  sendTransaction Fake.legacy_tx None Fake.no_options Fake.reloaded
  = (Throw (new_error WalletNotConnectedError), Fake.reloaded).
Proof.
  split; [reflexivity|]. split; [reflexivity|].
  destruct (deep_link_send_failures Fake.reloaded Fake.legacy_tx None Fake.no_options
              (new_error WalletNotConnectedError) eq_refl) as [H _].
  apply H. reflexivity.
Defined.


(** X13 on an attached extension that answers. *)
Lemma delegate_successes_witness :
  let s := Fake.attached None in
  _wallet (adapter s) = Some WindowSolana /\
  fst (signTransaction Fake.versioned_tx s) = Normal Fake.versioned_tx /\
  fst (signMessage [x01] s) = Normal [x01].
Proof.
  intros s.
  destruct (delegate_successes s WindowSolana _ eq_refl eq_refl) as (H1 & _ & H3 & _).
  split_and!; [reflexivity | |].
  - rewrite (H1 Fake.versioned_tx (Some Fake.versioned_tx) (Fake.extension None) eq_refl).
    reflexivity.
  - rewrite (H3 [x01] [x01] (Fake.extension None) eq_refl). reflexivity.
Defined.

(** X14 on a detected, already connected extension. *)
Lemma extension_attaches_witness :
  let s := Fake.installed (Fake.extension None) in
  let s' := snd (connect s) in
  readyState s = Installed /\
  injected_wallet (host s) = Some WindowSolana /\
  fst (connect s) = Normal tt /\
  publicKey s' = Some "addr" /\
  connected s' = true /\
  emitted s' = [connect_event "addr"].
Proof.
  intros s s'. split; [reflexivity|]. split; [reflexivity|].
  assert (H : connect s = _) by
    (eapply (extension_attaches s WindowSolana); run_it).
  subst s'. rewrite H. split_and!; reflexivity.
Defined.

(** X15 on a detected extension that refuses to connect. *)
Lemma extension_connect_failures_witness :
  let s := Fake.installed Fake.locked in
  let thrown :=
    WalletError WalletConnectionError "User rejected the request." (Some Fake.rejected) in
  fst (connect s) = Throw thrown /\
  emitted (snd (connect s)) = [error_event thrown].
Proof.
  intros s thrown.
  edestruct (extension_connect_failures s WindowSolana) as (H1 & _); [run_it .. |].
  destruct (H1 Fake.rejected eq_refl eq_refl) as (Ha & Hb & _).
  split; [exact Ha | exact Hb].
Defined.

(** X17 on an attached extension. *)
Lemma events_after_disconnect_witness :
  let s := Fake.attached None in
  let s1 := snd (disconnect s) in
  _wallet (adapter s) = Some WindowSolana /\
  step (wallet_disconnect WindowSolana) s1 = s1 /\
  step (wallet_accountChanged WindowSolana "other") s1 = s1.
Proof.
  intros s s1. split; [reflexivity|].
  destruct (events_after_disconnect s WindowSolana WindowSolana "other" eq_refl)
    as (H1 & H2 & _).
  split; [exact H1 | exact H2].
Defined.

(** X20 on a host without `document`. *)
Lemma unsupported_forever_witness :
  let s := run [call_connect; call_disconnect] (constructor Fake.headless) in
  document_defined Fake.headless = false /\
  host s = Fake.headless /\
  readyState s = Unsupported /\
  fst (connect s) = Throw (new_error WalletNotReadyError).
Proof.
  intros s. split; [reflexivity|].
  destruct (unsupported_forever Fake.headless [call_connect; call_disconnect])
    as (_ & H1 & H2 & _ & _ & _ & H6 & _); [right; reflexivity|].
  split_and!; [exact H1 | exact H2 | exact (H6 eq_refl)].
Defined.

(** X21 on the valid answer: connect, then disconnect. *)
Lemma deep_link_mode_witness :
  let h := host Fake.answered in
  let s := run [call_connect] (constructor h) in
  publicKey s = Some "addr" /\
  connected s = false /\
  fst (signMessage [x01] s) = Throw (new_error WalletNotConnectedError) /\
  is_Some (publicKey (run [call_disconnect] s)).
Proof.
  intros h s.
  destruct (deep_link_mode h [call_connect] [call_disconnect] eq_refl eq_refl)
    as (H1 & _ & _ & H4 & H5 & _).
  assert (Hk : publicKey s = Some "addr") by (vm_compute; reflexivity).
  split_and!; [exact Hk | exact H1 | exact (H4 [x01]) | ].
  apply H5. fold s. rewrite Hk. eexists; reflexivity.
Defined.

End CoverageRuns.
